(** * export-asic: the ASIC export driver of Dynamatic

    A shallow embedding of [tools/export-asic/export-asic.cpp]: the two script
    generators, the LibreLane flow runner and the [main] driver, over an
    explicit model of the process environment (file system, the two output
    streams, the child processes started through [system]). *)

From Stdlib Require Import ZArith Ascii String List Lia DecimalString.
From stdpp Require Import base option gmap strings list.

#[local] Set Warnings "-clear-no-such-hyp".

Local Open Scope Z_scope.

(** * The embedding *)

(** ** Text primitives *)

(** The line feed and the double quote of the C++ raw string literals. *)
Definition nl : string := String "010"%char EmptyString.
Definition dq : string := String "034"%char EmptyString.

(** [llvm::raw_ostream::operator<<(int)]: decimal rendering of an [int]. *)
Definition string_of_int (z : Z) : string :=
  NilEmpty.string_of_int (Z.to_int z).

(** [contains needle hay]: [needle] occurs in [hay] as a contiguous run of
    characters. *)
Definition contains (needle hay : string) : Prop :=
  exists pre post : string, hay = pre +:+ needle +:+ post.

(** ** Script generators *)

Module Scripts.

(** [createASICSynthesisScript] (export-asic.cpp, lines 177-213). *)
Definition createASICSynthesisScript
    (designName pdk library outputDir : string) : string :=
  let script :=
    nl +:+
    "# ASIC Synthesis Script for " +:+ designName +:+ nl +:+
    "# Generated by Dynamatic ASIC Export Tool" +:+ nl +:+
    nl +:+
    "# Read design files" +:+ nl in
  (* Add read commands for all Verilog files *)
  let script :=
    script +:+ ("read_verilog " +:+ outputDir +:+ "/" +:+ designName +:+ ".v" +:+ nl) in
  let script :=
    script +:+
    (nl +:+
     "# Hierarchy check" +:+ nl +:+
     "hierarchy -check -top " +:+ designName +:+ nl +:+
     nl +:+
     "# High-level synthesis" +:+ nl +:+
     "proc; opt; fsm; opt; memory; opt" +:+ nl +:+
     nl +:+
     "# Technology mapping" +:+ nl +:+
     "techmap; opt" +:+ nl +:+
     nl +:+
     "# Map to standard cells" +:+ nl +:+
     "dfflibmap -liberty $::env(PDK_ROOT)/" +:+ pdk +:+ "/libs.ref/" +:+ library +:+
       "/liberty/" +:+ library +:+ "__tt_025C_1v80.lib" +:+ nl +:+
     "abc -liberty $::env(PDK_ROOT)/" +:+ pdk +:+ "/libs.ref/" +:+ library +:+
       "/liberty/" +:+ library +:+ "__tt_025C_1v80.lib" +:+ nl +:+
     nl +:+
     "# Write synthesized netlist" +:+ nl +:+
     "write_verilog -noattr " +:+ outputDir +:+ "/" +:+ designName +:+ "_synthesized.v" +:+ nl +:+
     "write_liberty " +:+ outputDir +:+ "/" +:+ designName +:+ ".lib" +:+ nl +:+
     nl +:+
     "# Write statistics" +:+ nl +:+
     "stat -liberty $::env(PDK_ROOT)/" +:+ pdk +:+ "/libs.ref/" +:+ library +:+
       "/liberty/" +:+ library +:+ "__tt_025C_1v80.lib" +:+ nl) in
  script.

(** The part of the configuration template that follows the closing quote of
    the [STD_CELL_LIBRARY] value: the tail of the last raw string literal of
    [createLibreLaneConfig] (lines 230-261).  No argument occurs in it. *)
Definition libreLaneConfigTail : string :=
  dq +:+ nl +:+
  nl +:+
  "# Design configuration" +:+ nl +:+
  "set ::env(CLOCK_PERIOD) " +:+ dq +:+ "10.0" +:+ dq +:+ nl +:+
  "set ::env(CLOCK_PORT) " +:+ dq +:+ "clock" +:+ dq +:+ nl +:+
  "set ::env(CLOCK_NET) " +:+ dq +:+ "clock" +:+ dq +:+ nl +:+
  nl +:+
  "# Floorplan configuration" +:+ nl +:+
  "set ::env(DIE_AREA) " +:+ dq +:+ "0 0 1000 1000" +:+ dq +:+ nl +:+
  "set ::env(PLACE_SITE) " +:+ dq +:+ "unithd" +:+ dq +:+ nl +:+
  "set ::env(PLACE_DENSITY) " +:+ dq +:+ "0.6" +:+ dq +:+ nl +:+
  nl +:+
  "# Synthesis configuration" +:+ nl +:+
  "set ::env(SYNTH_STRATEGY) " +:+ dq +:+ "DELAY 0" +:+ dq +:+ nl +:+
  "set ::env(SYNTH_MAX_FANOUT) " +:+ dq +:+ "5" +:+ dq +:+ nl +:+
  nl +:+
  "# Place and Route configuration" +:+ nl +:+
  "set ::env(PLACE_SITE) " +:+ dq +:+ "unithd" +:+ dq +:+ nl +:+
  "set ::env(PLACE_DENSITY) " +:+ dq +:+ "0.6" +:+ dq +:+ nl +:+
  "set ::env(ROUTING_STRATEGY) " +:+ dq +:+ "2" +:+ dq +:+ nl +:+
  nl +:+
  "# Timing configuration" +:+ nl +:+
  "set ::env(STA_WRITE_LIB) " +:+ dq +:+ "1" +:+ dq +:+ nl +:+
  "set ::env(STA_USE_ARC_ENERGY) " +:+ dq +:+ "1" +:+ dq +:+ nl +:+
  nl +:+
  "# Power configuration" +:+ nl +:+
  "set ::env(POWER_OPTIMIZATION) " +:+ dq +:+ "1" +:+ dq +:+ nl +:+
  nl +:+
  "# Verification" +:+ nl +:+
  "set ::env(RUN_KLAYOUT_DRC) " +:+ dq +:+ "1" +:+ dq +:+ nl +:+
  "set ::env(RUN_KLAYOUT_XOR) " +:+ dq +:+ "1" +:+ dq +:+ nl.

(** [createLibreLaneConfig] (export-asic.cpp, lines 216-264). *)
Definition createLibreLaneConfig
    (designName pdk library outputDir : string) : string :=
  let config :=
    nl +:+
    "# LibreLane Configuration for " +:+ designName +:+ nl +:+
    "# Generated by Dynamatic ASIC Export Tool" +:+ nl +:+
    nl +:+
    "set ::env(DESIGN_NAME) " +:+ dq +:+ designName +:+ dq +:+ nl +:+
    "set ::env(VERILOG_FILES) " +:+ dq in
  let config :=
    config +:+ (outputDir +:+ "/" +:+ designName +:+ "_synthesized.v") in
  let config :=
    config +:+
    (dq +:+ nl +:+
     "set ::env(PDK) " +:+ dq +:+ pdk +:+ dq +:+ nl +:+
     "set ::env(STD_CELL_LIBRARY) " +:+ dq +:+ library +:+ libreLaneConfigTail) in
  config.

End Scripts.

Import Scripts.

(** ** Data supplied by the external collaborators *)

(** [mlir::LogicalResult]. *)
Inductive LogicalResult := success | failure.

Definition failed (r : LogicalResult) : bool :=
  match r with failure => true | success => false end.

Global Instance LogicalResult_eq_dec : EqDecision LogicalResult.
Proof. solve_decision. Defined.

(** Modelled from the spec: the external modules ([hw::HWModuleExternOp]) are
    declared in dynamatic/Dialect/HW/HWOps.h, which is not in this file.
    After section 3 (ModuleReference): a name and a mapping from parameter
    names to values. *)
Record ModuleReference := {
  ref_name : string;
  ref_parameters : list (string * string);
}.

(** Modelled from the spec: the entries of an RTL configuration are declared
    in dynamatic/Support/RTL/RTL.h, which is not in this file.  After section
    3 (GeneratorRule): a matching predicate over name and parameters, and a
    generation procedure that emits the source text ([None]: it fails). *)
Record GeneratorRule := {
  rule_accepts : string -> list (string * string) -> bool;
  rule_generate : string -> list (string * string) -> option string;
}.

(** Modelled from the spec: [RTLConfiguration] (same header), after section
    4.1: the rules in load order. *)
Definition RTLConfiguration := list GeneratorRule.

(** Modelled from the spec: [RTLMatch] (same header), after section 3
    (Match): a reference bound to the rule it was concretized with and to the
    file that was written for it. *)
Record RTLMatch := {
  match_ref : ModuleReference;
  match_rule : GeneratorRule;
  match_path : string;
}.

(** The parsed top-level [mlir::ModuleOp], as far as this tool reads it: the
    names of its [hw::HWModuleOp] operations and its [hw::HWModuleExternOp]
    operations, both in the order of the module body. *)
Record ModuleOp := {
  hwModules : list string;
  hwExterns : list ModuleReference;
}.

(** The command-line options (the [cl::opt] globals, lines 67-105). *)
Record Options := {
  inputFilename : string;
  outputDir : string;
  dynamaticPath : string;
  propertyFilename : string;
  pdk : string;
  library : string;
  designName : string;
  runLibreLane : bool;
  libreLanePath : string;
  rtlConfigs : list string;
}.

(** ** The process environment *)

(** Requests the tool makes to its environment, with their outcome. *)
Inductive Syscall :=
  | SysGetFile (path : string) (ok : bool)
  | SysCreateDirectories (path : string) (ok : bool)
  | SysParseConfig (path : string) (ok : bool)
  | SysOpen (path : string) (ok : bool)
  | SysWrite (path text : string) (ok : bool)
  | SysSystem (cmd : string) (result : Z).

Global Instance Syscall_eq_dec : EqDecision Syscall.
Proof. solve_decision. Defined.

(** What the tool can observe and change: regular files with their
    contents, directories, the text sent to [llvm::errs()] and to
    [llvm::outs()], and the requests made so far (oldest first). *)
Record World := {
  files : gmap string string;
  dirs : gset string;
  errs : string;
  outs : string;
  calls : list Syscall;
}.

Definition set_files (f : gmap string string) (w : World) : World :=
  {| files := f; dirs := dirs w; errs := errs w; outs := outs w; calls := calls w |}.
Definition set_dirs (d : gset string) (w : World) : World :=
  {| files := files w; dirs := d; errs := errs w; outs := outs w; calls := calls w |}.
Definition put_err (s : string) (w : World) : World :=
  {| files := files w; dirs := dirs w; errs := errs w +:+ s; outs := outs w; calls := calls w |}.
Definition put_out (s : string) (w : World) : World :=
  {| files := files w; dirs := dirs w; errs := errs w; outs := outs w +:+ s; calls := calls w |}.
Definition log_call (c : Syscall) (w : World) : World :=
  {| files := files w; dirs := dirs w; errs := errs w; outs := outs w; calls := calls w ++ [c] |}.

(** What the tool does not decide: the answers of the file system, of the
    parsers and of the child processes.  Every answer may depend on the
    current world. *)
Record Env := {
  (** [MemoryBuffer::getFileOrSTDIN]: the buffer, or the error message. *)
  env_getFile : World -> string -> string + string;
  (** [parseSourceFile<ModuleOp>]: [None] when the buffer does not parse. *)
  env_parseSourceFile : string -> option ModuleOp;
  (** Creating a directory that does not exist yet: [Some msg] on error. *)
  env_mkdir : World -> string -> option string;
  (** [RTLConfiguration::parseFromFile]: the rules of one file, or [None]. *)
  env_parseFromFile : World -> string -> option (list GeneratorRule);
  (** Whether [std::ofstream(path)] opens the file. *)
  env_open : World -> string -> bool;
  (** Whether an insertion of [text] into the open file [path] succeeds. *)
  env_write : World -> string -> string -> bool;
  (** The value [system(cmd)] returns. *)
  env_system : World -> string -> Z;
}.

(** ** Function bodies with early [return] *)

(** A statement either falls through with a value or returns from the
    enclosing function. *)
Inductive Outcome (R A : Type) :=
  | Next (a : A)
  | Return (r : R).
Arguments Next {R A} a.
Arguments Return {R A} r.

Definition Body (R A : Type) : Type := World -> Outcome R A * World.

Global Instance Body_ret {R} : MRet (Body R) :=
  fun A (a : A) w => (Next a, w).

Global Instance Body_bind {R} : MBind (Body R) :=
  fun A B (k : A -> Body R B) (m : Body R A) w =>
    match m w with
    | (Next a, w') => k a w'
    | (Return r, w') => (Return r, w')
    end.

(** [return r;] *)
Definition return_ {R A} (r : R) : Body R A := fun w => (Return r, w).

(** A statement that only changes the world. *)
Definition effect {R} (f : World -> World) : Body R unit :=
  fun w => (Next tt, f w).

(** A call of a function of this file from inside a body. *)
Definition invoke {R A} (f : World -> A * World) : Body R A :=
  fun w => let '(a, w') := f w in (Next a, w').

(** The function whose body is [b]. *)
Definition function {R} (b : Body R R) : World -> R * World :=
  fun w => match b w with
           | (Next r, w') => (r, w')
           | (Return r, w') => (r, w')
           end.

(** A range-based [for] loop that carries [acc] from one iteration to the
    next. *)
Fixpoint for_each {R A S} (l : list A) (body : S -> A -> Body R S) (acc : S)
    : Body R S :=
  match l with
  | [] => mret acc
  | x :: l' => acc' ← body acc x; for_each l' body acc'
  end.

(** [llvm::errs() << s] and [llvm::outs() << s]. *)
Definition errs_print {R} (s : string) : Body R unit := effect (put_err s).
Definition outs_print {R} (s : string) : Body R unit := effect (put_out s).

(** [if (c) { ... }] *)
Definition when {R} (c : bool) (body : Body R unit) : Body R unit :=
  if c then body else mret tt.

(** [std::string::empty]. *)
Definition empty (s : string) : bool :=
  match s with EmptyString => true | String _ _ => false end.

(** ** Library calls *)

(** A [std::ofstream]: the file it was constructed on, whether it is open
    and whether it is still in a good state. *)
Record ofstream := {
  os_path : string;
  os_is_open : bool;
  os_good : bool;
}.

(** [stream.close()]. *)
Definition ofstream_close (s : ofstream) : ofstream :=
  {| os_path := os_path s; os_is_open := false; os_good := os_good s |}.

(** [llvm::DenseMapInfo<std::pair<std::string, bool>>] (lines 107-129). *)
Module DenseMapInfo.

Definition EMPTY_KEY : string * bool := ("EMPTY_KEY", false).
Definition TOMBSTONE_KEY : string * bool := ("TOMBSTONE_KEY", false).

Definition getEmptyKey : string * bool := EMPTY_KEY.

Definition getTombstoneKey : string * bool := TOMBSTONE_KEY.

(** [hash] stands for [std::hash<std::string>], whose values the standard
    library leaves to the implementation.  The flag is cast to [unsigned]
    and shifted by one, the xor is taken at the width of [size_t], and the
    result is truncated to [unsigned], 32 bits wide. *)
Definition getHashValue (hash : string -> Z) (p : string * bool) : Z :=
  Z.lxor (hash p.1) (Z.shiftl (if p.2 then 1 else 0) 1) mod 2 ^ 32.

Definition isEqual (LHS RHS : string * bool) : bool := bool_decide (LHS = RHS).

End DenseMapInfo.

(** [ASICExportInfo] (lines 138-174). *)
Module ASICExportInfo.
Record t := {
  modOp : ModuleOp;
  config : RTLConfiguration;
  outputPath : string;
  pdk : string;
  library : string;
  designName : string;
  externals : list (ModuleReference * RTLMatch);
}.
End ASICExportInfo.

(** The constructor of [ASICExportInfo] (lines 157-161): no match yet. *)
Definition ASICExportInfo_new (modOp : ModuleOp) (config : RTLConfiguration)
    (outputPath pdk library designName : string) : ASICExportInfo.t :=
  {| ASICExportInfo.modOp := modOp;
     ASICExportInfo.config := config;
     ASICExportInfo.outputPath := outputPath;
     ASICExportInfo.pdk := pdk;
     ASICExportInfo.library := library;
     ASICExportInfo.designName := designName;
     ASICExportInfo.externals := [] |}.

(** [ASICExportInfo::concretizeExternalModules] is declared at line 167 and
    defined nowhere in this file: [main] is written against its interface.
    It returns a result and may change the matches held by the object and
    the world. *)
Class Concretizer :=
  concretizeExternalModules :
    ASICExportInfo.t -> World -> (LogicalResult * ASICExportInfo.t) * World.

Section Tool.

Context (env : Env).

(** [std::ofstream stream(path)]: opening truncates the file. *)
Definition ofstream_ctor (path : string) : World -> ofstream * World :=
  fun w =>
    let ok := env_open env w path in
    let w' := log_call (SysOpen path ok) w in
    ({| os_path := path; os_is_open := ok; os_good := ok |},
     if ok then set_files (<[path := EmptyString]> (files w')) w' else w').

(** [stream << text]: nothing happens on a stream that is closed or no
    longer good; a failed insertion leaves the stream in a bad state. *)
Definition ofstream_insert (s : ofstream) (text : string)
    : World -> ofstream * World :=
  fun w =>
    if os_is_open s && os_good s then
      let ok := env_write env w (os_path s) text in
      let w' := log_call (SysWrite (os_path s) text ok) w in
      if ok then
        let old := default EmptyString (files w' !! os_path s) in
        (s, set_files (<[os_path s := old +:+ text]> (files w')) w')
      else
        ({| os_path := os_path s; os_is_open := os_is_open s; os_good := false |}, w')
    else (s, w).

(** [stream << t1 << t2 << ...]. *)
Fixpoint ofstream_inserts (s : ofstream) (texts : list string)
    : World -> ofstream * World :=
  fun w =>
    match texts with
    | [] => (s, w)
    | t :: texts' =>
        let '(s', w') := ofstream_insert s t w in
        ofstream_inserts s' texts' w'
    end.

(** [MemoryBuffer::getFileOrSTDIN(path)]. *)
Definition getFileOrSTDIN (path : string) : World -> (string + string) * World :=
  fun w =>
    let r := env_getFile env w path in
    (r, log_call (SysGetFile path (if r is inr _ then true else false)) w).

(** Every proper prefix of [s] that ends just before a separator, then the
    whole path: the directories [create_directories] has to provide. *)
Fixpoint path_chain (acc s : string) : list string :=
  match s with
  | EmptyString => [acc]
  | String c s' =>
      (if bool_decide (c = "/"%char) && negb (empty acc) then [acc] else []) ++
      path_chain (acc +:+ String c EmptyString) s'
  end.

(** Modelled from the spec: [llvm::sys::fs::create_directories(path)] with its
    default [IgnoreExisting = true], which LLVM defines and this repository
    only calls.  A directory that exists already is no error; otherwise the
    directory and its parents are created, unless the environment refuses. *)
Definition create_directories (path : string) : World -> option string * World :=
  fun w =>
    if bool_decide (path ∈ dirs w) then
      (None, log_call (SysCreateDirectories path true) w)
    else
      match env_mkdir env w path with
      | Some msg => (Some msg, log_call (SysCreateDirectories path false) w)
      | None =>
          (None,
           set_dirs (dirs w ∪ list_to_set (path_chain EmptyString path))
                    (log_call (SysCreateDirectories path true) w))
      end.

(** Modelled from the spec: [RTLConfiguration::parseFromFile], declared in
    dynamatic/Support/RTL/RTL.h.  Loading is cumulative: the rules of the
    file are appended to those already loaded. *)
Definition parseFromFile (config : RTLConfiguration) (path : string)
    : World -> (LogicalResult * RTLConfiguration) * World :=
  fun w =>
    match env_parseFromFile env w path with
    | Some rules => ((success, config ++ rules), log_call (SysParseConfig path true) w)
    | None => ((failure, config), log_call (SysParseConfig path false) w)
    end.

(** [system(cmd)]: the tool observes the value returned, a wait status, and
    nothing else.  The files and directories of a world are those the tool
    itself has written and created: what a child process does to the file
    system is not modelled, so nothing in this development speaks of it. *)
Definition system (cmd : string) : World -> Z * World :=
  fun w =>
    let r := env_system env w cmd in
    (r, log_call (SysSystem cmd r) w).

Notation "s <<< texts" := (invoke (ofstream_inserts s texts))
  (at level 50, left associativity).

(** ** The flow runner *)

(** The insertions into the launcher script ([runLibreLaneFlow], lines
    283-292). *)
Definition writeLauncherScript {R} (scriptFile : ofstream)
    (libreLanePath outputDir designName : string) : Body R ofstream :=
  scriptFile ← scriptFile <<< ["#!/bin/bash" +:+ nl];
  scriptFile ← scriptFile <<< ["set -e" +:+ nl +:+ nl];
  scriptFile ← scriptFile <<< ["cd "; outputDir; nl];
  scriptFile ← scriptFile <<< ["export PDK_ROOT="; libreLanePath; "/pdks" +:+ nl];
  scriptFile ← scriptFile <<< ["export OPENLANE_ROOT="; libreLanePath; nl];
  scriptFile ← scriptFile <<<
    ["export OPENLANE_IMAGE_NAME=efabless/openlane:current" +:+ nl];
  scriptFile ← scriptFile <<< ["export CARAVEL_ROOT="; libreLanePath; "/caravel" +:+ nl];
  scriptFile ← scriptFile <<< ["export CARAVEL_LITE=1" +:+ nl +:+ nl];
  scriptFile ← scriptFile <<< ["# Run LibreLane flow" +:+ nl];
  scriptFile <<<
    [libreLanePath; "/flow.tcl -design "; designName; " -tag dynamatic" +:+ nl].

(** [runLibreLaneFlow] (lines 267-316). *)
Definition runLibreLaneFlow (libreLanePath outputDir designName : string)
    : World -> LogicalResult * World :=
  function (
    when (empty libreLanePath) (
      errs_print ("Error: LibreLane path not specified" +:+ nl);;
      return_ failure);;
    (* Create LibreLane run script *)
    let runScript := outputDir +:+ "/run_librelane.sh" in
    scriptFile ← invoke (ofstream_ctor runScript);
    when (negb (os_is_open scriptFile)) (
      errs_print ("Error: Cannot create LibreLane run script" +:+ nl);;
      return_ failure);;
    scriptFile ← writeLauncherScript scriptFile libreLanePath outputDir designName;
    let scriptFile := ofstream_close scriptFile in
    (* Make script executable *)
    let chmodCmd := "chmod +x " +:+ runScript in
    chmodResult ← invoke (system chmodCmd);
    when (negb (chmodResult =? 0)) (
      errs_print ("Error: Failed to make LibreLane script executable" +:+ nl);;
      return_ failure);;
    (* Run LibreLane *)
    let runCmd := "bash " +:+ runScript in
    outs_print ("Running LibreLane flow..." +:+ nl);;
    outs_print ("Command: " +:+ runCmd +:+ nl);;
    result ← invoke (system runCmd);
    when (negb (result =? 0)) (
      errs_print ("Error: LibreLane flow failed with exit code " +:+
                  string_of_int result +:+ nl);;
      return_ failure);;
    outs_print ("LibreLane flow completed successfully!" +:+ nl);;
    mret success).

(** ** The driver *)

Context {conc : Concretizer}.

(** Parse the input MLIR file ([main], lines 333-350). *)
Definition main_parseInput (args : Options) : Body Z ModuleOp :=
  fileOrErr ← invoke (getFileOrSTDIN (inputFilename args));
  match fileOrErr with
  | inl message =>
      errs_print ("Could not open input file '" +:+ inputFilename args +:+
                  "': " +:+ message +:+ nl);;
      return_ 1
  | inr buffer =>
      match env_parseSourceFile env buffer with
      | None =>
          errs_print ("Error: Could not parse the input file" +:+ nl);;
          return_ 1
      | Some module => mret module
      end
  end.

(** Create output directory if it doesn't exist ([main], lines 352-357). *)
Definition main_createOutputDirectory (args : Options) : Body Z unit :=
  error ← invoke (create_directories (outputDir args));
  match error with
  | Some message =>
      errs_print ("Error: Could not create output directory '" +:+
                  outputDir args +:+ "': " +:+ message +:+ nl);;
      return_ 1
  | None => mret tt
  end.

(** Parse RTL configuration files ([main], lines 359-367). *)
Definition main_parseConfigs (args : Options) : Body Z RTLConfiguration :=
  for_each (rtlConfigs args)
    (fun config configFile =>
       '(r, config) ← invoke (parseFromFile config configFile);
       when (failed r) (
         errs_print ("Error: Could not parse RTL configuration file '" +:+
                     configFile +:+ "'" +:+ nl);;
         return_ 1);;
       mret config)
    [].

(** Create ASIC export info and concretize external modules ([main], lines
    369-376). *)
Definition main_concretize (args : Options) (module : ModuleOp)
    (config : RTLConfiguration) : Body Z ASICExportInfo.t :=
  let exportInfo :=
    ASICExportInfo_new module config (outputDir args) (pdk args) (library args)
                       (designName args) in
  '(r, exportInfo) ← invoke (concretizeExternalModules exportInfo);
  when (failed r) (
    errs_print ("Error: Failed to concretize external modules" +:+ nl);;
    return_ 1);;
  mret exportInfo.

(** The four insertions of one iteration of the loop at lines 387-393. *)
Definition writeModuleStub (designStream : ofstream) (op : string)
    : Body Z ofstream :=
  designStream ← designStream <<< ["// Module: "; op; nl];
  (* TODO: Implement proper Verilog generation *)
  designStream ← designStream <<< ["module "; op; "();" +:+ nl];
  designStream ← designStream <<< ["  // TODO: Implement module body" +:+ nl];
  designStream <<< ["endmodule" +:+ nl +:+ nl].

(** Write main design file, write Verilog for all modules ([main], lines
    378-395); the value is [designFile]. *)
Definition main_writeDesign (args : Options) (module : ModuleOp) : Body Z string :=
  let designFile := outputDir args +:+ "/" +:+ designName args +:+ ".v" in
  designStream ← invoke (ofstream_ctor designFile);
  when (negb (os_is_open designStream)) (
    errs_print ("Error: Could not create design file '" +:+ designFile +:+
                "'" +:+ nl);;
    return_ 1);;
  designStream ← for_each (hwModules module) writeModuleStub designStream;
  let designStream := ofstream_close designStream in
  mret designFile.

(** Create Yosys synthesis script ([main], lines 397-404); the value is
    [yosysFile]. *)
Definition main_writeYosys (args : Options) : Body Z string :=
  let yosysScript :=
    createASICSynthesisScript (designName args) (pdk args) (library args)
                              (outputDir args) in
  let yosysFile := outputDir args +:+ "/synthesize.tcl" in
  yosysStream ← invoke (ofstream_ctor yosysFile);
  (if os_is_open yosysStream then
     yosysStream ← yosysStream <<< [yosysScript];
     let yosysStream := ofstream_close yosysStream in
     mret tt
   else mret tt);;
  mret yosysFile.

(** Create LibreLane configuration ([main], lines 406-413); the value is
    [configFile]. *)
Definition main_writeConfig (args : Options) : Body Z string :=
  let libreLaneConfig :=
    createLibreLaneConfig (designName args) (pdk args) (library args)
                          (outputDir args) in
  let configFile := outputDir args +:+ "/config.tcl" in
  configStream ← invoke (ofstream_ctor configFile);
  (if os_is_open configStream then
     configStream ← configStream <<< [libreLaneConfig];
     let configStream := ofstream_close configStream in
     mret tt
   else mret tt);;
  mret configFile.

(** The closing report and the optional flow ([main], lines 415-427). *)
Definition main_finish (args : Options) (designFile yosysFile configFile : string)
    : Body Z unit :=
  outs_print ("ASIC export completed successfully!" +:+ nl);;
  outs_print ("Output directory: " +:+ outputDir args +:+ nl);;
  outs_print ("Design file: " +:+ designFile +:+ nl);;
  outs_print ("Yosys script: " +:+ yosysFile +:+ nl);;
  outs_print ("LibreLane config: " +:+ configFile +:+ nl);;
  (* Run LibreLane if requested *)
  when (runLibreLane args) (
    r ← invoke (runLibreLaneFlow (libreLanePath args) (outputDir args)
                                 (designName args));
    when (failed r) (
      errs_print ("Error: LibreLane flow failed" +:+ nl);;
      return_ 1)).

(** [main] after the output directory exists and the configuration is
    loaded (lines 369-429). *)
Definition main_export (args : Options) (module : ModuleOp)
    (config : RTLConfiguration) : Body Z Z :=
  exportInfo ← main_concretize args module config;
  designFile ← main_writeDesign args module;
  yosysFile ← main_writeYosys args;
  configFile ← main_writeConfig args;
  main_finish args designFile yosysFile configFile;;
  mret 0.

(** [main] up to the loaded configuration (lines 333-367). *)
Definition main_setup (args : Options) : Body Z (ModuleOp * RTLConfiguration) :=
  module ← main_parseInput args;
  main_createOutputDirectory args;;
  config ← main_parseConfigs args;
  mret (module, config).

(** [main] (lines 320-430), after the command line is parsed into [args]. *)
Definition main (args : Options) : World -> Z * World :=
  function (
    '(module, config) ← main_setup args;
    main_export args module config).

End Tool.

(** ** Resolution of the external modules *)

Section Resolution.

Context (env : Env).

(** Modelled from the spec: the Reference Matcher (section 4.2), whose code
    ([RTLConfiguration::getMatchingComponent]) is not in this file.  A linear
    scan over the rules in load order; the first rule that accepts the name
    and the parameters of the reference wins. *)
Definition getMatchingComponent (config : RTLConfiguration)
    (ref : ModuleReference) : option GeneratorRule :=
  List.find (fun rule => rule_accepts rule (ref_name ref) (ref_parameters ref))
            config.

(** Modelled from the spec: the Concretizer (section 4.3), whose code
    ([RTLMatch::concretize]) is not in this file.  The rule generates the
    source text, which is written to a path derived from the name of the
    reference under the output directory; it fails when the generation fails
    or the file cannot be written. *)
Definition concretize (ref : ModuleReference) (rule : GeneratorRule)
    (outputPath : string) : World -> option RTLMatch * World :=
  function (
    match rule_generate rule (ref_name ref) (ref_parameters ref) with
    | None => return_ None
    | Some text =>
        let path := outputPath +:+ "/" +:+ ref_name ref +:+ ".v" in
        stream ← invoke (ofstream_ctor env path);
        when (negb (os_is_open stream)) (return_ None);;
        stream ← invoke (ofstream_insert env stream text);
        when (negb (os_good stream)) (return_ None);;
        mret (Some {| match_ref := ref; match_rule := rule; match_path := path |})
    end).

(** One reference of the resolution loop: the flag stays [true] as long as
    every reference so far was matched and concretized. *)
Definition resolveReference (config : RTLConfiguration) (outputPath : string)
    (acc : bool * list (ModuleReference * RTLMatch)) (ref : ModuleReference)
    : Body (LogicalResult * ASICExportInfo.t)
           (bool * list (ModuleReference * RTLMatch)) :=
  match getMatchingComponent config ref with
  | None =>
      errs_print ("Error: no generator rule matches external module '" +:+
                  ref_name ref +:+ "'" +:+ nl);;
      mret (false, acc.2)
  | Some rule =>
      m ← invoke (concretize ref rule outputPath);
      match m with
      | None =>
          errs_print ("Error: could not concretize external module '" +:+
                      ref_name ref +:+ "'" +:+ nl);;
          mret (false, acc.2)
      | Some m => mret (acc.1, acc.2 ++ [(ref, m)])
      end
  end.

(** Modelled from the spec: [ASICExportInfo::concretizeExternalModules], which
    line 167 declares and no file of the repository defines.  After section
    4.4: every external reference of the design, in enumeration order, goes
    through the matcher and then the concretizer; the operation fails when
    any reference has no matching rule or fails concretization, and the
    diagnostics report which references could not be resolved (section 7:
    every unresolved reference is named); files already written stay. *)
Definition spec_concretizeExternalModules : Concretizer :=
  fun info =>
    function (
      '(ok, externals) ←
        for_each (hwExterns (ASICExportInfo.modOp info))
                 (resolveReference (ASICExportInfo.config info)
                                   (ASICExportInfo.outputPath info))
                 (true, ASICExportInfo.externals info);
      mret (if ok : bool then success else failure,
            {| ASICExportInfo.modOp := ASICExportInfo.modOp info;
               ASICExportInfo.config := ASICExportInfo.config info;
               ASICExportInfo.outputPath := ASICExportInfo.outputPath info;
               ASICExportInfo.pdk := ASICExportInfo.pdk info;
               ASICExportInfo.library := ASICExportInfo.library info;
               ASICExportInfo.designName := ASICExportInfo.designName info;
               ASICExportInfo.externals := externals |})).

End Resolution.

(** * Vocabulary of the properties *)

(** ** Reading a configuration back *)

(** [strip_prefix p s]: what follows [p] when [s] starts with [p]. *)
Fixpoint strip_prefix (p s : string) : option string :=
  match p, s with
  | EmptyString, _ => Some s
  | String a p', String b s' => if Ascii.eqb a b then strip_prefix p' s' else None
  | String _ _, EmptyString => None
  end.

(** The characters of [s] before its first double quote. *)
Fixpoint upto_quote (s : string) : string :=
  match s with
  | EmptyString => EmptyString
  | String c s' => if Ascii.eqb c "034"%char then EmptyString else String c (upto_quote s')
  end.

(** The values of all commands [set ::env(key) "value"] of [text], in the
    order of the text. *)
Fixpoint settings (key text : string) : list string :=
  (match strip_prefix ("set ::env(" +:+ key +:+ ") " +:+ dq) text with
   | Some rest => [upto_quote rest]
   | None => []
   end) ++
  match text with
  | EmptyString => []
  | String _ text' => settings key text'
  end.

(** What [::env(key)] holds once the flow has read [text]: the value of the
    last [set] command for [key]. *)
Definition effective_setting (key text : string) : option string :=
  last (settings key text).

(** A setting is injected from the session when some change of the session's
    parameters (design name, pdk, library, output directory) changes it. *)
Definition injected_from_session (key : string) : Prop :=
  exists d p l o d' p' l' o' : string,
    effective_setting key (createLibreLaneConfig d p l o) <>
    effective_setting key (createLibreLaneConfig d' p' l' o').

(** The settings section 4.5 requires of the backend configuration. *)
Definition required_settings : list string :=
  ["DESIGN_NAME"; "PDK"; "STD_CELL_LIBRARY"; "VERILOG_FILES";
   "CLOCK_PERIOD"; "CLOCK_PORT"; "DIE_AREA"; "PLACE_DENSITY"].

(** ** Texts with holes

    A template is a text built by concatenation from literals and from the
    arguments of the generator.  Whether one template occurs in another for
    every value of the arguments is decided on their tokens. *)
Module Template.

Inductive txt :=
  | Lit (s : string)
  | Var (i : nat)
  | App (a b : txt).

Inductive tok :=
  | Chr (c : ascii)
  | Hole (i : nat).

Global Instance tok_eq_dec : EqDecision tok.
Proof. solve_decision. Defined.

Fixpoint eval (rho : nat -> string) (t : txt) : string :=
  match t with
  | Lit s => s
  | Var i => rho i
  | App a b => eval rho a +:+ eval rho b
  end.

Fixpoint chars (s : string) : list tok :=
  match s with
  | EmptyString => []
  | String c s' => Chr c :: chars s'
  end.

Fixpoint flatten (t : txt) : list tok :=
  match t with
  | Lit s => chars s
  | Var i => [Hole i]
  | App a b => flatten a ++ flatten b
  end.

Fixpoint denote (rho : nat -> string) (ts : list tok) : string :=
  match ts with
  | [] => EmptyString
  | Chr c :: ts' => String c (denote rho ts')
  | Hole i :: ts' => rho i +:+ denote rho ts'
  end.

Fixpoint tok_prefix (n h : list tok) : bool :=
  match n, h with
  | [], _ => true
  | x :: n', y :: h' => bool_decide (x = y) && tok_prefix n' h'
  | _ :: _, [] => false
  end.

Fixpoint tok_contains (n h : list tok) : bool :=
  tok_prefix n h ||
  match h with
  | [] => false
  | _ :: h' => tok_contains n h'
  end.

End Template.

(** ** Requests and worlds *)

(** An insertion into the file [path]. *)
Definition is_write_to (path : string) (c : Syscall) : Prop :=
  exists text ok, c = SysWrite path text ok.

(** [w'] comes from [w] by insertions into the file [path] only. *)
Record writes_only (path : string) (w w' : World) : Prop := {
  wo_calls : exists new, calls w' = calls w ++ new /\ Forall (is_write_to path) new;
  wo_errs : errs w' = errs w;
  wo_outs : outs w' = outs w;
  wo_dirs : dirs w' = dirs w;
  wo_files : forall p, p <> path -> files w' !! p = files w !! p;
}.

(** A request that starts a child process. *)
Definition is_system (c : Syscall) : bool :=
  match c with SysSystem _ _ => true | _ => false end.

(** A request that runs the launcher script [runScript]. *)
Definition is_flow_run (runScript : string) (c : Syscall) : bool :=
  match c with
  | SysSystem cmd _ => bool_decide (cmd = "bash " +:+ runScript)
  | _ => false
  end.

(** Every run of [m] takes a world to a world related by [rel]. *)
Definition frames (rel : World -> World -> Prop) {R A} (m : Body R A) : Prop :=
  forall w, rel w (m w).2.

(** An attempt to create the output directory. *)
Definition is_mkdir (c : Syscall) : bool :=
  match c with SysCreateDirectories _ _ => true | _ => false end.

(** How often [l] attempts to create a directory. *)
Definition mkdir_attempts (l : list Syscall) : nat := length (filter is_mkdir l).
Global Arguments mkdir_attempts : simpl never.

(** No directory creation is attempted between [w] and [w']. *)
Definition no_mkdir (w w' : World) : Prop :=
  mkdir_attempts (calls w') = mkdir_attempts (calls w).

(** The file [p] is the same in [w] and [w']. *)
Definition keeps_file (p : string) (w w' : World) : Prop :=
  files w' !! p = files w !! p.

(** The error stream of [w'] extends that of [w]. *)
Definition errs_grow (w w' : World) : Prop :=
  exists e, errs w' = errs w +:+ e.

(** Every early [return] of [m] returns [v]. *)
Definition exits {R A} (v : R) (m : Body R A) : Prop :=
  forall w r w', m w = (Return r, w') -> r = v.

(** ** The design file *)

(** The path of the top-level design file (line 379). *)
Definition designFile (args : Options) : string :=
  outputDir args +:+ "/" +:+ designName args +:+ ".v".

(** The run from [w0] gets through the resolution stage and starts the
    emission in [w1]. *)
Definition reaches_emission (env : Env) (conc : Concretizer) (args : Options)
    (module : ModuleOp) (w0 w1 : World) : Prop :=
  exists config w info,
    main_setup env args w0 = (Next (module, config), w) /\
    main_concretize args module config w = (Next info, w1).

(** The text of one module of the design file (lines 388-392). *)
Definition moduleStub (op : string) : string :=
  "// Module: " +:+ op +:+ nl +:+
  "module " +:+ op +:+ "();" +:+ nl +:+
  "  // TODO: Implement module body" +:+ nl +:+
  "endmodule" +:+ nl +:+ nl.

(** The stubs of the modules, one after the other. *)
Definition designText (modules : list string) : string :=
  foldr (fun op text => moduleStub op +:+ text) EmptyString modules.

(** ** The stages of a run *)

(** One iteration of the loop of [main_parseConfigs] (lines 361-366). *)
Definition parseConfigs_step (env : Env) (config : RTLConfiguration)
    (configFile : string) : Body Z RTLConfiguration :=
  '(r, config) ← invoke (parseFromFile env config configFile);
  when (failed r) (
    errs_print ("Error: Could not parse RTL configuration file '" +:+
                configFile +:+ "'" +:+ nl);;
    return_ 1);;
  mret config.

(** The text the flow runner inserts into the launcher script (lines
    283-292). *)
Definition launcherText (libreLanePath outputDir designName : string) : string :=
  "#!/bin/bash" +:+ nl +:+
  "set -e" +:+ nl +:+ nl +:+
  "cd " +:+ outputDir +:+ nl +:+
  "export PDK_ROOT=" +:+ libreLanePath +:+ "/pdks" +:+ nl +:+
  "export OPENLANE_ROOT=" +:+ libreLanePath +:+ nl +:+
  "export OPENLANE_IMAGE_NAME=efabless/openlane:current" +:+ nl +:+
  "export CARAVEL_ROOT=" +:+ libreLanePath +:+ "/caravel" +:+ nl +:+
  "export CARAVEL_LITE=1" +:+ nl +:+ nl +:+
  "# Run LibreLane flow" +:+ nl +:+
  libreLanePath +:+ "/flow.tcl -design " +:+ designName +:+ " -tag dynamatic" +:+ nl.

(** The closing report (lines 415-419). *)
Definition reportText (args : Options) : string :=
  "ASIC export completed successfully!" +:+ nl +:+
  "Output directory: " +:+ outputDir args +:+ nl +:+
  "Design file: " +:+ designFile args +:+ nl +:+
  "Yosys script: " +:+ outputDir args +:+ "/synthesize.tcl" +:+ nl +:+
  "LibreLane config: " +:+ outputDir args +:+ "/config.tcl" +:+ nl.

(** The files [main] writes itself (lines 379, 400, 409 and 274). *)
Definition artifacts (args : Options) : list string :=
  [designFile args;
   outputDir args +:+ "/synthesize.tcl";
   outputDir args +:+ "/config.tcl";
   outputDir args +:+ "/run_librelane.sh"].

(** The environment lets the tool create the file [p] and write to it. *)
Definition accepts (env : Env) (p : string) : Prop :=
  (forall w, env_open env w p = true) /\
  (forall w text, env_write env w p text = true).

(** ** Requests of a run *)

(** The shapes the requests of one call of the flow runner can take, with
    the result and the texts of each: [writes] are the insertions into the
    launcher script. *)
Inductive FlowTrace (runScript : string) (writes : list Syscall)
    : list Syscall -> LogicalResult -> string -> string -> Prop :=
  | FlowNoPath :
      FlowTrace runScript writes [] failure
        ("Error: LibreLane path not specified" +:+ nl) EmptyString
  | FlowNoScript :
      FlowTrace runScript writes [SysOpen runScript false] failure
        ("Error: Cannot create LibreLane run script" +:+ nl) EmptyString
  | FlowNoChmod (code : Z) :
      code <> 0 ->
      FlowTrace runScript writes
        (SysOpen runScript true :: writes ++
         [SysSystem ("chmod +x " +:+ runScript) code])
        failure
        ("Error: Failed to make LibreLane script executable" +:+ nl) EmptyString
  | FlowChildFailed (code : Z) :
      code <> 0 ->
      FlowTrace runScript writes
        (SysOpen runScript true :: writes ++
         [SysSystem ("chmod +x " +:+ runScript) 0;
          SysSystem ("bash " +:+ runScript) code])
        failure
        ("Error: LibreLane flow failed with exit code " +:+ string_of_int code +:+ nl)
        ("Running LibreLane flow..." +:+ nl +:+ "Command: bash " +:+ runScript +:+ nl)
  | FlowDone :
      FlowTrace runScript writes
        (SysOpen runScript true :: writes ++
         [SysSystem ("chmod +x " +:+ runScript) 0;
          SysSystem ("bash " +:+ runScript) 0])
        success EmptyString
        ("Running LibreLane flow..." +:+ nl +:+ "Command: bash " +:+ runScript +:+ nl +:+
         "LibreLane flow completed successfully!" +:+ nl).

(** The child processes started so far, oldest first. *)
Definition children (w : World) : list Syscall := filter is_system (calls w).

(** No child process is started between [w] and [w']. *)
Definition no_child (w w' : World) : Prop := children w' = children w.

(** The child processes one run may start for the launcher [runScript]:
    none, a chmod that fails, or a chmod that returns 0 followed by the
    launcher. *)
Inductive FlowChildren (runScript : string) : list Syscall -> Prop :=
  | NoChild : FlowChildren runScript []
  | ChmodFailed (code : Z) :
      code <> 0 ->
      FlowChildren runScript [SysSystem ("chmod +x " +:+ runScript) code]
  | Launched (code : Z) :
      FlowChildren runScript
        [SysSystem ("chmod +x " +:+ runScript) 0;
         SysSystem ("bash " +:+ runScript) code].

(** The child processes between [w] and [w'] are those of at most one use of
    the launcher of [args], and there is none unless the flow is requested
    with a path. *)
Definition children_of_flow (args : Options) (w w' : World) : Prop :=
  exists cs,
    children w' = children w ++ cs /\
    FlowChildren (outputDir args +:+ "/run_librelane.sh") cs /\
    (runLibreLane args = false \/ libreLanePath args = EmptyString -> cs = []).

(** ** Frames *)

(** Nothing is printed between [w] and [w']. *)
Definition silent (w w' : World) : Prop :=
  errs w' = errs w /\ outs w' = outs w.

(** ** The failures of a run *)

(** The emission of the design file and of the two scripts takes [w1] to
    [w4] (lines 378-413). *)
Definition emitted (env : Env) (args : Options) (module : ModuleOp)
    (w1 w4 : World) : Prop :=
  exists w2 w3,
    main_writeDesign env args module w1 = (Next (designFile args), w2) /\
    main_writeYosys env args w2 = (Next (outputDir args +:+ "/synthesize.tcl"), w3) /\
    main_writeConfig env args w3 = (Next (outputDir args +:+ "/config.tcl"), w4).

(** The seven places where [main] gives up (lines 337-341, 346-349, 353-357,
    362-366, 373-376, 381-384 and 423-426), each with the answer of the
    environment that leads there, the diagnostic, and the world in which the
    diagnostic is printed. *)
Inductive MainFailure (env : Env) (conc : Concretizer) (args : Options)
    (w0 : World) : string -> World -> Prop :=
  | FailOpenInput (message : string) :
      env_getFile env w0 (inputFilename args) = inl message ->
      MainFailure env conc args w0
        ("Could not open input file '" +:+ inputFilename args +:+ "': " +:+
         message +:+ nl)
        (log_call (SysGetFile (inputFilename args) false) w0)
  | FailParseInput (buffer : string) :
      env_getFile env w0 (inputFilename args) = inr buffer ->
      env_parseSourceFile env buffer = None ->
      MainFailure env conc args w0
        ("Error: Could not parse the input file" +:+ nl)
        (log_call (SysGetFile (inputFilename args) true) w0)
  | FailOutputDir (module : ModuleOp) (message : string) (w1 w2 : World) :
      main_parseInput env args w0 = (Next module, w1) ->
      create_directories env (outputDir args) w1 = (Some message, w2) ->
      MainFailure env conc args w0
        ("Error: Could not create output directory '" +:+ outputDir args +:+
         "': " +:+ message +:+ nl)
        w2
  | FailConfig (module : ModuleOp) (pre post : list string) (bad : string)
      (config : RTLConfiguration) (w1 w2 w3 : World) :
      main_parseInput env args w0 = (Next module, w1) ->
      create_directories env (outputDir args) w1 = (None, w2) ->
      rtlConfigs args = pre ++ bad :: post ->
      for_each pre (parseConfigs_step env) [] w2 = (Next config, w3) ->
      env_parseFromFile env w3 bad = None ->
      MainFailure env conc args w0
        ("Error: Could not parse RTL configuration file '" +:+ bad +:+ "'" +:+ nl)
        (log_call (SysParseConfig bad false) w3)
  | FailResolution (module : ModuleOp) (config : RTLConfiguration)
      (info' : ASICExportInfo.t) (w w2 : World) :
      main_setup env args w0 = (Next (module, config), w) ->
      @concretizeExternalModules conc
        (ASICExportInfo_new module config (outputDir args) (pdk args)
                            (library args) (designName args)) w =
        ((failure, info'), w2) ->
      MainFailure env conc args w0
        ("Error: Failed to concretize external modules" +:+ nl) w2
  | FailDesignFile (module : ModuleOp) (w1 : World) :
      reaches_emission env conc args module w0 w1 ->
      env_open env w1 (designFile args) = false ->
      MainFailure env conc args w0
        ("Error: Could not create design file '" +:+ designFile args +:+ "'" +:+ nl)
        (log_call (SysOpen (designFile args) false) w1)
  | FailFlow (module : ModuleOp) (w1 w4 w6 : World) :
      reaches_emission env conc args module w0 w1 ->
      emitted env args module w1 w4 ->
      runLibreLane args = true ->
      runLibreLaneFlow env (libreLanePath args) (outputDir args) (designName args)
                       (put_out (reportText args) w4) = (failure, w6) ->
      MainFailure env conc args w0 ("Error: LibreLane flow failed" +:+ nl) w6.

(** The options [args] with the flow switched off. *)
Definition without_flow (args : Options) : Options :=
  {| inputFilename := inputFilename args;
     outputDir := outputDir args;
     dynamaticPath := dynamaticPath args;
     propertyFilename := propertyFilename args;
     pdk := pdk args;
     library := library args;
     designName := designName args;
     runLibreLane := false;
     libreLanePath := libreLanePath args;
     rtlConfigs := rtlConfigs args |}.

(** ** The requests of a stage *)

(** All requests made between [w] and [w'] satisfy [P]. *)
Definition requests_only (P : Syscall -> Prop) (w w' : World) : Prop :=
  exists new, calls w' = calls w ++ new /\ Forall P new.

(** [P] holds of every request to open the file [path] or to insert into
    it. *)
Definition covers (P : Syscall -> Prop) (path : string) : Prop :=
  (forall ok, P (SysOpen path ok)) /\ (forall text ok, P (SysWrite path text ok)).

(** What the flow runner asks for the launcher script of [outputDir]: to
    open it, to insert into it, and to run chmod and bash on it. *)
Definition launcher_request (outputDir : string) (c : Syscall) : Prop :=
  match c with
  | SysOpen path _ | SysWrite path _ _ => path = outputDir +:+ "/run_librelane.sh"
  | SysSystem cmd _ =>
      cmd = "chmod +x " +:+ (outputDir +:+ "/run_librelane.sh") \/
      cmd = "bash " +:+ (outputDir +:+ "/run_librelane.sh")
  | _ => False
  end.

(** What [main] asks for once the resolution stage is over: to open one of
    its four files, to insert into one, and what the flow runner asks. *)
Definition emission_request (args : Options) (c : Syscall) : Prop :=
  match c with
  | SysOpen path _ | SysWrite path _ _ => path ∈ artifacts args
  | SysSystem _ _ => launcher_request (outputDir args) c
  | _ => False
  end.

(** ** Wait statuses *)

(** What [system] returns is a wait status, which <sys/wait.h> reads on
    Linux as follows: the child has exited when the low seven bits are
    clear, and bits 8 to 15 then hold its exit code. *)
Definition WIFEXITED (status : Z) : bool := Z.land status 127 =? 0.

Definition WEXITSTATUS (status : Z) : Z := Z.land (Z.shiftr status 8) 255.

(** The exit code of the child, if it has exited. *)
Definition exit_code (status : Z) : option Z :=
  if WIFEXITED status then Some (WEXITSTATUS status) else None.

(** * Sample runs *)

Module Sample.

(** The design of the end-to-end scenarios: one external reference [adder]
    with [width = 32], and two top-level modules. *)
Definition adder : ModuleReference :=
  {| ref_name := "adder"; ref_parameters := [("width", "32")] |}.

Definition design : ModuleOp :=
  {| hwModules := ["top"; "kernel"]; hwExterns := [adder] |}.

(** A rule for [adder] of any width. *)
Definition adderRule : GeneratorRule :=
  {| rule_accepts := fun name _ => String.eqb name "adder";
     rule_generate := fun name _ => Some ("module " +:+ name +:+ "(); endmodule" +:+ nl) |}.

(** A rule that matches another component only. *)
Definition muxRule : GeneratorRule :=
  {| rule_accepts := fun name _ => String.eqb name "mux";
     rule_generate := fun name _ => Some ("module " +:+ name +:+ "(); endmodule" +:+ nl) |}.

Definition args : Options :=
  {| inputFilename := "design.mlir";
     outputDir := "out";
     dynamaticPath := ".";
     propertyFilename := EmptyString;
     pdk := "sky130";
     library := "sky130_fd_sc_hd";
     designName := "dynamatic_design";
     runLibreLane := false;
     libreLanePath := EmptyString;
     rtlConfigs := ["rtl.json"] |}.

(** The same options with the flow requested from [/opt/librelane]. *)
Definition argsFlow : Options :=
  {| inputFilename := "design.mlir";
     outputDir := "out";
     dynamaticPath := ".";
     propertyFilename := EmptyString;
     pdk := "sky130";
     library := "sky130_fd_sc_hd";
     designName := "dynamatic_design";
     runLibreLane := true;
     libreLanePath := "/opt/librelane";
     rtlConfigs := ["rtl.json"] |}.

Definition world0 : World :=
  {| files := ∅; dirs := ∅; errs := EmptyString; outs := EmptyString; calls := [] |}.

(** An environment in which every request succeeds and the configuration
    file holds [rules]. *)
Definition envWith (rules : list GeneratorRule) : Env :=
  {| env_getFile := fun _ _ => inr "module {}";
     env_parseSourceFile := fun _ => Some design;
     env_mkdir := fun _ _ => None;
     env_parseFromFile := fun _ _ => Some rules;
     env_open := fun _ _ => true;
     env_write := fun _ _ _ => true;
     env_system := fun _ _ => 0 |}.

Definition envOk : Env := envWith [adderRule].

(** No rule matches [adder]. *)
Definition envNoRule : Env := envWith [muxRule].

(** Every request succeeds but the creation of the files [blocked]. *)
Definition envBlocking (blocked : list string) : Env :=
  {| env_getFile := fun _ _ => inr "module {}";
     env_parseSourceFile := fun _ => Some design;
     env_mkdir := fun _ _ => None;
     env_parseFromFile := fun _ _ => Some [adderRule];
     env_open := fun _ path => negb (bool_decide (path ∈ blocked));
     env_write := fun _ _ _ => true;
     env_system := fun _ _ => 0 |}.

(** Files are created but every insertion into the files [blocked] fails. *)
Definition envRefusing (blocked : list string) : Env :=
  {| env_getFile := fun _ _ => inr "module {}";
     env_parseSourceFile := fun _ => Some design;
     env_mkdir := fun _ _ => None;
     env_parseFromFile := fun _ _ => Some [adderRule];
     env_open := fun _ _ => true;
     env_write := fun _ path _ => negb (bool_decide (path ∈ blocked));
     env_system := fun _ _ => 0 |}.

(** The input file cannot be read. *)
Definition envNoInput : Env :=
  {| env_getFile := fun _ _ => inl "No such file or directory";
     env_parseSourceFile := fun _ => Some design;
     env_mkdir := fun _ _ => None;
     env_parseFromFile := fun _ _ => Some [adderRule];
     env_open := fun _ _ => true;
     env_write := fun _ _ _ => true;
     env_system := fun _ _ => 0 |}.

(** The output directory cannot be created. *)
Definition envNoDir : Env :=
  {| env_getFile := fun _ _ => inr "module {}";
     env_parseSourceFile := fun _ => Some design;
     env_mkdir := fun _ _ => Some "Permission denied";
     env_parseFromFile := fun _ _ => Some [adderRule];
     env_open := fun _ _ => true;
     env_write := fun _ _ _ => true;
     env_system := fun _ _ => 0 |}.

(** Every request succeeds but the launcher, whose [system] call returns
    256. *)
Definition envChildFails : Env :=
  {| env_getFile := fun _ _ => inr "module {}";
     env_parseSourceFile := fun _ => Some design;
     env_mkdir := fun _ _ => None;
     env_parseFromFile := fun _ _ => Some [adderRule];
     env_open := fun _ _ => true;
     env_write := fun _ _ _ => true;
     env_system := fun _ cmd =>
       if bool_decide (cmd = "bash out/run_librelane.sh") then 256 else 0 |}.

(** The run of [args] in the environment [env], from the empty world and
    with the modelled resolution stage. *)
Definition run (env : Env) (args : Options) : Z * World :=
  main env (conc := spec_concretizeExternalModules env) args world0.

End Sample.

(** Every request succeeds but the launcher, for which [system] returns
    [status]. *)
Definition envLauncherReturns (status : Z) : Env :=
  {| env_getFile := fun _ _ => inr "module {}";
     env_parseSourceFile := fun _ => Some Sample.design;
     env_mkdir := fun _ _ => None;
     env_parseFromFile := fun _ _ => Some [Sample.adderRule];
     env_open := fun _ _ => true;
     env_write := fun _ _ _ => true;
     env_system := fun _ cmd =>
       if bool_decide (cmd = "bash out/run_librelane.sh") then status else 0 |}.

(** * Properties *)

(** ** The sample runs *)

Example path_chain_examples :
  path_chain EmptyString "out/a/b" = ["out"; "out/a"; "out/a/b"] /\
  path_chain EmptyString "/tmp/x" = ["/tmp"; "/tmp/x"] /\
  path_chain EmptyString "out" = ["out"].
Proof. repeat split. Qed.

Example string_of_int_examples :
  string_of_int 0 = "0" /\ string_of_int 256 = "256" /\ string_of_int (-1) = "-1".
Proof. repeat split. Qed.

(** The first end-to-end scenario: exit code 0, the four files, the report. *)
Example run_ok :
  (Sample.run Sample.envOk Sample.args).1 = 0 /\
  dom (files (Sample.run Sample.envOk Sample.args).2) =
    {[ "out/adder.v"; "out/dynamatic_design.v"; "out/synthesize.tcl";
       "out/config.tcl" ]} /\
  errs (Sample.run Sample.envOk Sample.args).2 = EmptyString /\
  outs (Sample.run Sample.envOk Sample.args).2 =
    "ASIC export completed successfully!" +:+ nl +:+
    "Output directory: out" +:+ nl +:+
    "Design file: out/dynamatic_design.v" +:+ nl +:+
    "Yosys script: out/synthesize.tcl" +:+ nl +:+
    "LibreLane config: out/config.tcl" +:+ nl.
Proof. repeat split; by vm_compute. Qed.

(** The second end-to-end scenario: no rule for [adder]. *)
Example run_no_rule :
  (Sample.run Sample.envNoRule Sample.args).1 = 1 /\
  files (Sample.run Sample.envNoRule Sample.args).2 = ∅ /\
  errs (Sample.run Sample.envNoRule Sample.args).2 =
    "Error: no generator rule matches external module 'adder'" +:+ nl +:+
    "Error: Failed to concretize external modules" +:+ nl.
Proof. repeat split; by vm_compute. Qed.

(** The flow is requested and its child process succeeds. *)
Example run_flow :
  (Sample.run Sample.envOk Sample.argsFlow).1 = 0 /\
  files (Sample.run Sample.envOk Sample.argsFlow).2 !! "out/run_librelane.sh" =
    Some ("#!/bin/bash" +:+ nl +:+
          "set -e" +:+ nl +:+ nl +:+
          "cd out" +:+ nl +:+
          "export PDK_ROOT=/opt/librelane/pdks" +:+ nl +:+
          "export OPENLANE_ROOT=/opt/librelane" +:+ nl +:+
          "export OPENLANE_IMAGE_NAME=efabless/openlane:current" +:+ nl +:+
          "export CARAVEL_ROOT=/opt/librelane/caravel" +:+ nl +:+
          "export CARAVEL_LITE=1" +:+ nl +:+ nl +:+
          "# Run LibreLane flow" +:+ nl +:+
          "/opt/librelane/flow.tcl -design dynamatic_design -tag dynamatic" +:+ nl).
Proof. repeat split; by vm_compute. Qed.

(** The flow is requested and its child process fails. *)
Example run_flow_fails :
  (Sample.run Sample.envChildFails Sample.argsFlow).1 = 1 /\
  errs (Sample.run Sample.envChildFails Sample.argsFlow).2 =
    "Error: LibreLane flow failed with exit code 256" +:+ nl +:+
    "Error: LibreLane flow failed" +:+ nl.
Proof. repeat split; by vm_compute. Qed.

(** The flow is requested without a path: the export is done, then the run
    fails. *)
Example run_flow_without_path :
  let args := {| inputFilename := "design.mlir"; outputDir := "out";
                 dynamaticPath := "."; propertyFilename := EmptyString;
                 pdk := "sky130"; library := "sky130_fd_sc_hd";
                 designName := "dynamatic_design"; runLibreLane := true;
                 libreLanePath := EmptyString; rtlConfigs := ["rtl.json"] |} in
  (Sample.run Sample.envOk args).1 = 1 /\
  errs (Sample.run Sample.envOk args).2 =
    "Error: LibreLane path not specified" +:+ nl +:+
    "Error: LibreLane flow failed" +:+ nl /\
  files (Sample.run Sample.envOk args).2 !! "out/run_librelane.sh" = None.
Proof. repeat split; by vm_compute. Qed.

(** ** Texts *)

Lemma append_assoc (a b c : string) : (a +:+ b) +:+ c = a +:+ (b +:+ c).
Proof.
  induction a as [|x a IH]; [reflexivity|].
  change (String x ((a +:+ b) +:+ c) = String x (a +:+ (b +:+ c))).
  by rewrite IH.
Qed.

Lemma append_nil_r (a : string) : a +:+ EmptyString = a.
Proof.
  induction a as [|x a IH]; [reflexivity|].
  change (String x (a +:+ EmptyString) = String x a). by rewrite IH.
Qed.

Lemma contains_refl n : contains n n.
Proof. exists EmptyString, EmptyString. by rewrite append_nil_r. Qed.

Lemma contains_app_r p n h : contains n h -> contains n (p +:+ h).
Proof.
  intros (pre & post & ->). exists (p +:+ pre), post. by rewrite append_assoc.
Qed.

Lemma contains_app_l n h q : contains n h -> contains n (h +:+ q).
Proof.
  intros (pre & post & ->). exists pre, (post +:+ q).
  by rewrite !append_assoc.
Qed.

(** *** Texts with holes *)

Module TemplateFacts.

Import Template.

Lemma denote_app rho a b : denote rho (a ++ b) = denote rho a +:+ denote rho b.
Proof.
  induction a as [|[c|i] a IH]; simpl; [done| |].
  - by rewrite IH.
  - by rewrite IH, append_assoc.
Qed.

Lemma denote_chars rho s : denote rho (chars s) = s.
Proof. induction s as [|c s IH]; simpl; [done|by rewrite IH]. Qed.

Lemma denote_flatten rho t : denote rho (flatten t) = eval rho t.
Proof.
  induction t as [s|i|a IHa b IHb]; simpl.
  - apply denote_chars.
  - apply append_nil_r.
  - by rewrite denote_app, IHa, IHb.
Qed.

Lemma tok_prefix_sound rho n h :
  tok_prefix n h = true -> exists post, denote rho h = denote rho n +:+ post.
Proof.
  revert h. induction n as [|x n IH]; intros h Hp.
  - by exists (denote rho h).
  - destruct h as [|y h]; [done|]. simpl in Hp.
    apply andb_true_iff in Hp as [Hxy Hp]. apply bool_decide_eq_true in Hxy as <-.
    destruct (IH _ Hp) as [post Hpost]. exists post.
    destruct x as [c|i]; simpl; rewrite Hpost; [done|by rewrite append_assoc].
Qed.

Lemma tok_contains_sound rho n h :
  tok_contains n h = true -> contains (denote rho n) (denote rho h).
Proof.
  induction h as [|y h IH]; simpl; intros Hc.
  - rewrite orb_false_r in Hc. destruct n; [|done]. apply contains_refl.
  - apply orb_true_iff in Hc as [Hp|Hc].
    + destruct (tok_prefix_sound rho _ _ Hp) as [post Hpost].
      exists EmptyString, post. exact Hpost.
    + specialize (IH Hc). destruct y as [c|i].
      * destruct IH as (pre & post & ->). by exists (String c pre), post.
      * by apply contains_app_r.
Qed.

(** The needle occurs in the hay whatever the arguments are. *)
Lemma occurs rho n h :
  tok_contains (flatten n) (flatten h) = true ->
  contains (eval rho n) (eval rho h).
Proof.
  intros H. rewrite <- !denote_flatten. by apply tok_contains_sound.
Qed.

End TemplateFacts.

(** Reads a text over the arguments [d], [p], [l], [o] as a template. *)
Ltac reify_text d p l o t :=
  lazymatch t with
  | String.append ?a ?b =>
      let ra := reify_text d p l o a in
      let rb := reify_text d p l o b in
      constr:(Template.App ra rb)
  | d => constr:(Template.Var 0%nat)
  | p => constr:(Template.Var 1%nat)
  | l => constr:(Template.Var 2%nat)
  | o => constr:(Template.Var 3%nat)
  | _ => constr:(Template.Lit t)
  end.

(** Proves [contains needle hay] for texts over the arguments [d p l o]. *)
Ltac contains_tac d p l o :=
  cbv beta zeta delta [createASICSynthesisScript createLibreLaneConfig];
  lazymatch goal with
  | |- contains ?n ?h =>
      let rn := reify_text d p l o n in
      let rh := reify_text d p l o h in
      let rho := constr:(fun i : nat =>
                   match i with
                   | 0%nat => d | 1%nat => p | 2%nat => l | _ => o
                   end) in
      change (contains (Template.eval rho rn) (Template.eval rho rh));
      apply TemplateFacts.occurs; vm_compute; reflexivity
  end.

(** *** The settings of the backend configuration *)

Lemma settings_app key h t :
  exists l, settings key (h +:+ t) = l ++ settings key t.
Proof.
  induction h as [|c h [l IH]].
  - by exists [].
  - change (String c h +:+ t) with (String c (h +:+ t)).
    cbn [settings]. rewrite IH.
    eexists. rewrite (assoc (++)). reflexivity.
Qed.

Lemma effective_setting_tail key h t v :
  effective_setting key t = Some v ->
  effective_setting key (h +:+ t) = Some v.
Proof.
  unfold effective_setting. intros Ht.
  destruct (settings_app key h t) as [l ->].
  by rewrite last_app, Ht.
Qed.

(** The configuration is some text followed by the fixed tail. *)
Lemma createLibreLaneConfig_tail d p l o :
  exists head, createLibreLaneConfig d p l o = head +:+ libreLaneConfigTail.
Proof.
  cbv beta zeta delta [createLibreLaneConfig].
  eexists. rewrite <- !append_assoc. reflexivity.
Qed.

Lemma effective_setting_config key v d p l o :
  effective_setting key libreLaneConfigTail = Some v ->
  effective_setting key (createLibreLaneConfig d p l o) = Some v.
Proof.
  intros Hv. destruct (createLibreLaneConfig_tail d p l o) as [head ->].
  by apply effective_setting_tail.
Qed.

(** C5: [createASICSynthesisScript] and [createLibreLaneConfig] are functions
    from four strings to a string (they take no world and return none, so
    they cannot touch the file system), and for every value of the
    arguments, the empty string included, the text they return contains the
    design name, the pdk and the library as they were passed in. *)
Theorem C5_generators_embed_arguments (designName pdk library outputDir : string) :
  let script := createASICSynthesisScript designName pdk library outputDir in
  let config := createLibreLaneConfig designName pdk library outputDir in
  (contains designName script /\ contains pdk script /\ contains library script) /\
  (contains designName config /\ contains pdk config /\ contains library config).
Proof.
  cbv zeta. repeat split; contains_tac designName pdk library outputDir.
Qed.

(** C10: for every design name, pdk, library and output directory the
    backend configuration contains the settings CLOCK_PERIOD "10.0",
    CLOCK_PORT "clock", DIE_AREA "0 0 1000 1000" and PLACE_DENSITY "0.6";
    they sit in a tail of the text that is the same for all inputs, and they
    are the values in force after the whole text is read, so no input
    changes them. *)
Theorem C10_backend_constants (designName pdk library outputDir : string) :
  let config := createLibreLaneConfig designName pdk library outputDir in
  (contains ("set ::env(CLOCK_PERIOD) " +:+ dq +:+ "10.0" +:+ dq +:+ nl) config /\
   contains ("set ::env(CLOCK_PORT) " +:+ dq +:+ "clock" +:+ dq +:+ nl) config /\
   contains ("set ::env(DIE_AREA) " +:+ dq +:+ "0 0 1000 1000" +:+ dq +:+ nl) config /\
   contains ("set ::env(PLACE_DENSITY) " +:+ dq +:+ "0.6" +:+ dq +:+ nl) config) /\
  (exists head, config = head +:+ libreLaneConfigTail) /\
  (effective_setting "CLOCK_PERIOD" config = Some "10.0" /\
   effective_setting "CLOCK_PORT" config = Some "clock" /\
   effective_setting "DIE_AREA" config = Some "0 0 1000 1000" /\
   effective_setting "PLACE_DENSITY" config = Some "0.6").
Proof.
  cbv zeta. split; [|split].
  - repeat split; contains_tac designName pdk library outputDir.
  - apply createLibreLaneConfig_tail.
  - repeat split; apply effective_setting_config; vm_compute; reflexivity.
Qed.

(** C6, as the claim states it, fails: it wants every required setting to
    take its value from the session's parameters, and the clock period does
    not: whatever the design name, pdk, library and output directory are,
    the configuration sets CLOCK_PERIOD to 10.0. *)
Lemma C6_counterexample :
  ~ (forall key, key ∈ required_settings -> injected_from_session key).
Proof.
  intros H. destruct (H "CLOCK_PERIOD") as (d & p & l & o & d' & p' & l' & o' & Hne).
  - unfold required_settings. set_solver.
  - apply Hne.
    rewrite !(effective_setting_config "CLOCK_PERIOD" "10.0"); [done|done..].
Qed.

(** C6, amended: for every design name, pdk, library and output directory,
    the two generated texts contain the design name, the pdk, the library,
    the path of the synthesized netlist (output directory, design name and
    the suffix _synthesized.v) and the path of the liberty timing library
    (built from the pdk and the library), all taken from the arguments; the
    clock period, the clock port, the die area and the placement density
    are there as the constants 10.0, clock, 0 0 1000 1000 and 0.6, which no
    argument changes, while the settings DESIGN_NAME, PDK, STD_CELL_LIBRARY
    and VERILOG_FILES do follow the arguments. *)
Theorem C6_substitution_points (designName pdk library outputDir : string) :
  let script := createASICSynthesisScript designName pdk library outputDir in
  let config := createLibreLaneConfig designName pdk library outputDir in
  let netlist := outputDir +:+ "/" +:+ designName +:+ "_synthesized.v" in
  let liberty :=
    "$::env(PDK_ROOT)/" +:+ pdk +:+ "/libs.ref/" +:+ library +:+ "/liberty/" +:+
    library +:+ "__tt_025C_1v80.lib" in
  (contains ("hierarchy -check -top " +:+ designName +:+ nl) script /\
   contains ("set ::env(DESIGN_NAME) " +:+ dq +:+ designName +:+ dq +:+ nl) config) /\
  contains ("set ::env(PDK) " +:+ dq +:+ pdk +:+ dq +:+ nl) config /\
  contains ("set ::env(STD_CELL_LIBRARY) " +:+ dq +:+ library +:+ dq +:+ nl) config /\
  (contains ("write_verilog -noattr " +:+ netlist +:+ nl) script /\
   contains ("set ::env(VERILOG_FILES) " +:+ dq +:+ netlist +:+ dq +:+ nl) config) /\
  (contains ("dfflibmap -liberty " +:+ liberty +:+ nl) script /\
   contains ("abc -liberty " +:+ liberty +:+ nl) script /\
   contains ("stat -liberty " +:+ liberty +:+ nl) script) /\
  (effective_setting "CLOCK_PERIOD" config = Some "10.0" /\
   effective_setting "CLOCK_PORT" config = Some "clock" /\
   effective_setting "DIE_AREA" config = Some "0 0 1000 1000" /\
   effective_setting "PLACE_DENSITY" config = Some "0.6") /\
  (injected_from_session "DESIGN_NAME" /\ injected_from_session "PDK" /\
   injected_from_session "STD_CELL_LIBRARY" /\ injected_from_session "VERILOG_FILES") /\
  (~ injected_from_session "CLOCK_PERIOD" /\ ~ injected_from_session "CLOCK_PORT" /\
   ~ injected_from_session "DIE_AREA" /\ ~ injected_from_session "PLACE_DENSITY").
Proof.
  cbv zeta.
  assert (Hfixed : forall key v,
             effective_setting key libreLaneConfigTail = Some v ->
             ~ injected_from_session key).
  { intros key v Hv (d & p & l & o & d' & p' & l' & o' & Hne).
    apply Hne. by rewrite !(effective_setting_config key v). }
  assert (Hfollows : forall key,
             effective_setting key (createLibreLaneConfig "a" "a" "a" "a") <>
             effective_setting key (createLibreLaneConfig "b" "b" "b" "b") ->
             injected_from_session key).
  { intros key Hne. by exists "a", "a", "a", "a", "b", "b", "b", "b". }
  repeat split;
    try (contains_tac designName pdk library outputDir);
    try (apply effective_setting_config; vm_compute; reflexivity);
    try (apply Hfollows; vm_compute; discriminate);
    try (eapply Hfixed; vm_compute; reflexivity).
Qed.

(** ** The flow runner without a path *)

(** C3: for every output directory and design name, the flow runner called
    with an empty LibreLane path fails at once with the diagnostic
    "LibreLane path not specified" and leaves everything else as it was: no
    file and no directory changes, and no request is made (no launcher
    script is opened, no chmod and no child process is run). *)
Theorem C3_empty_flow_path (env : Env) (outputDir designName : string) (w : World) :
  let '(r, w') := runLibreLaneFlow env EmptyString outputDir designName w in
  r = failure /\
  errs w' = errs w +:+ "Error: LibreLane path not specified" +:+ nl /\
  files w' = files w /\ dirs w' = dirs w /\ calls w' = calls w /\ outs w' = outs w.
Proof. cbn. repeat split. Qed.

(** ** Resolution failures stop the run *)

(** C1: when the run reaches the resolution of the external modules and the
    resolution fails, [main] exits with code 1 and does nothing after the
    resolution stage but print its diagnostic: the files and the requests
    made are those the resolution stage left, so neither the design file nor
    synthesize.tcl nor config.tcl is opened. *)
Theorem C1_resolution_failure_stops
    (env : Env) (conc : Concretizer) (args : Options) (w0 w w2 : World)
    (module : ModuleOp) (config : RTLConfiguration) (info' : ASICExportInfo.t) :
  main_setup env args w0 = (Next (module, config), w) ->
  concretizeExternalModules
    (ASICExportInfo_new module config (outputDir args) (pdk args) (library args)
                        (designName args)) w = ((failure, info'), w2) ->
  let '(code, wf) := main env args w0 in
  code = 1 /\
  wf = put_err ("Error: Failed to concretize external modules" +:+ nl) w2 /\
  files wf = files w2 /\ dirs wf = dirs w2 /\ calls wf = calls w2.
Proof.
  intros Hsetup Hconc.
  unfold main, function, mbind, Body_bind. rewrite Hsetup.
  unfold main_export, main_concretize, mbind, Body_bind, invoke.
  rewrite Hconc. cbn. repeat split.
Qed.

(** The hypotheses of C1 hold in the second end-to-end scenario: the setup
    succeeds and no rule matches [adder]. *)
Lemma C1_witness :
  exists wf, Sample.run Sample.envNoRule Sample.args = (1, wf).
Proof.
  unfold Sample.run.
  pose proof (C1_resolution_failure_stops Sample.envNoRule
                (spec_concretizeExternalModules Sample.envNoRule)
                Sample.args Sample.world0) as H.
  specialize (H _ _ _ _ _ eq_refl eq_refl).
  destruct (main _ _ _) as [code wf]. destruct H as (-> & _).
  by exists wf.
Defined.

(** ** What the insertions into a stream change *)

Lemma writes_only_refl path w : writes_only path w w.
Proof.
  split; try done. exists []. by rewrite app_nil_r.
Qed.

Lemma writes_only_trans path w1 w2 w3 :
  writes_only path w1 w2 -> writes_only path w2 w3 -> writes_only path w1 w3.
Proof.
  intros [(n1 & Hc1 & Hf1) He1 Ho1 Hd1 Hp1] [(n2 & Hc2 & Hf2) He2 Ho2 Hd2 Hp2].
  split; try congruence.
  - exists (n1 ++ n2). rewrite Hc2, Hc1, (assoc (++)). split; [done|].
    by apply Forall_app_2.
  - intros p Hp. by rewrite Hp2, Hp1.
Qed.

Section Streams.

Context (env : Env).

Lemma ofstream_insert_spec s text w s' w' :
  ofstream_insert env s text w = (s', w') ->
  writes_only (os_path s) w w' /\
  os_path s' = os_path s /\ os_is_open s' = os_is_open s.
Proof.
  unfold ofstream_insert.
  destruct (os_is_open s && os_good s) eqn:Hlive.
  - destruct (env_write env w (os_path s) text) eqn:Hok; intros [= <- <-];
      (split; [|done]); split; cbn; try done.
    + eexists. split; [done|]. repeat constructor. by eexists _, _.
    + intros p Hp. by rewrite lookup_insert_ne.
    + eexists. split; [done|]. repeat constructor. by eexists _, _.
  - intros [= <- <-]. split; [apply writes_only_refl|done].
Qed.

Lemma ofstream_inserts_spec texts : forall s w s' w',
  ofstream_inserts env s texts w = (s', w') ->
  writes_only (os_path s) w w' /\
  os_path s' = os_path s /\ os_is_open s' = os_is_open s.
Proof.
  induction texts as [|t texts IH]; intros s w s' w'; cbn.
  - intros [= <- <-]. split; [apply writes_only_refl|done].
  - destruct (ofstream_insert env s t w) as [s1 w1] eqn:E1.
    intros E2. apply ofstream_insert_spec in E1 as (H1 & Hp1 & Ho1).
    apply IH in E2 as (H2 & Hp2 & Ho2). rewrite Hp1 in H2.
    split; [by eapply writes_only_trans|]. split; congruence.
Qed.

(** With an environment that accepts every insertion into the file of the
    stream, a good open stream stays good and the texts are appended in
    order to what the file holds. *)
Lemma ofstream_inserts_good texts : forall s w c,
  (forall w0 t, env_write env w0 (os_path s) t = true) ->
  os_is_open s = true -> os_good s = true ->
  files w !! os_path s = Some c ->
  exists w',
    ofstream_inserts env s texts w = (s, w') /\
    files w' !! os_path s = Some (c +:+ foldr String.append EmptyString texts).
Proof.
  induction texts as [|t texts IH]; intros s w c Hw Hopen Hgood Hc; cbn.
  - exists w. by rewrite append_nil_r.
  - unfold ofstream_insert. rewrite Hopen, Hgood, Hw. cbn. rewrite Hc. cbn.
    edestruct (IH s) as (w' & -> & Hw'); [done..| |].
    + cbn. apply lookup_insert_eq.
    + exists w'. by rewrite Hw', append_assoc.
Qed.

(** The launcher script is written without an early return, by insertions
    into the script only. *)
Lemma writeLauncherScript_spec {R} s path out name w :
  exists s' w',
    writeLauncherScript (R := R) env s path out name w = (Next s', w') /\
    writes_only (os_path s) w w'.
Proof.
  unfold writeLauncherScript, mbind, Body_bind, invoke.
  repeat lazymatch goal with
  | |- context [ofstream_inserts env ?s0 ?l ?w0] =>
      let E := fresh "E" in
      let H := fresh "H" in
      destruct (ofstream_inserts env s0 l w0) as [? ?] eqn:E;
      apply ofstream_inserts_spec in E as (H & ? & _)
  end.
  eexists _, _. split; [done|].
  repeat match goal with
  | H : os_path _ = os_path _ |- _ => rewrite H in *; clear H
  end.
  repeat (eapply writes_only_trans; [eassumption|]).
  apply writes_only_refl.
Qed.

End Streams.

(** Membership in the requests of a concrete run. *)
Ltac in_list :=
  apply list_elem_of_In; vm_compute;
  repeat first [left; reflexivity|right].

(** ** The flow runner with a path *)

Lemma empty_false s : s <> EmptyString -> empty s = false.
Proof. by destruct s. Qed.

Lemma filter_writes {P : Syscall -> Prop} `{!forall c, Decision (P c)} path l :
  Forall (is_write_to path) l ->
  (forall text ok, ~ P (SysWrite path text ok)) ->
  filter P l = [].
Proof.
  intros Hl HP. induction Hl as [|c l (text & ok & ->) _ IH]; [done|].
  rewrite filter_cons_False; [done|apply HP].
Qed.

(** Bounds the number of selected requests of a short explicit list. *)
Ltac count_tac :=
  first
    [ etrans; [apply length_filter|cbn; lia]
    | rewrite filter_cons_False;
        [etrans; [apply length_filter|cbn; lia]
        |cbn; rewrite bool_decide_eq_false_2 by done; tauto] ].

(** C4, as the claim states it, fails, in two ways.  A child that exits
    with code 1 makes [system] return the wait status 256, and the runner
    reports 256 under the words "exit code", not the child's exit code.  And
    a child that is killed by signal 9 has not exited at all, with a non-zero
    code or any other, yet the runner fails although the script was created
    and chmod returned 0. *)
Lemma C4_counterexample :
  (let run := runLibreLaneFlow (envLauncherReturns 256) "/opt/librelane" "out"
                "dynamatic_design" Sample.world0 in
   exit_code 256 = Some 1 /\
   run.1 = failure /\
   errs run.2 = "Error: LibreLane flow failed with exit code 256" +:+ nl) /\
  (let run := runLibreLaneFlow (envLauncherReturns 9) "/opt/librelane" "out"
                "dynamatic_design" Sample.world0 in
   exit_code 9 = None /\
   SysOpen "out/run_librelane.sh" true ∈ calls run.2 /\
   SysSystem "chmod +x out/run_librelane.sh" 0 ∈ calls run.2 /\
   run.1 = failure).
Proof.
  cbv zeta. repeat split; try (vm_compute; reflexivity); in_list.
Qed.

(** C4, amended: with a non-empty LibreLane path the outcome of the flow
    runner is decided by three answers of the environment, asked in this
    order and each at most once.  If the launcher script cannot be created,
    the runner fails at once.  Otherwise it writes the script and runs chmod
    on it; if [system] returns non-zero for chmod, it fails without running
    the launcher.  Otherwise it runs the launcher, once; it returns success
    if [system] returns 0 for it, and fails after a diagnostic on the error
    stream if [system] returns anything else (a child that exits non-zero, a
    child killed by a signal, a shell that cannot be started).  In every
    case the world it leaves is the one these steps give, so nothing is
    retried: the launcher is run at most once, among at most two child
    processes.  (Which number the diagnostic of a failed launcher carries is
    left open.) *)
Theorem C4_flow_runner (env : Env) (libreLanePath outputDir designName : string)
    (w : World) :
  libreLanePath <> EmptyString ->
  let runScript := outputDir +:+ "/run_librelane.sh" in
  let '(r, w') := runLibreLaneFlow env libreLanePath outputDir designName w in
  (if env_open env w runScript then
     exists w1,
       writes_only runScript
         (set_files (<[runScript := EmptyString]> (files w))
                    (log_call (SysOpen runScript true) w)) w1 /\
       let chmod := env_system env w1 ("chmod +x " +:+ runScript) in
       let w2 := log_call (SysSystem ("chmod +x " +:+ runScript) chmod) w1 in
       if chmod =? 0 then
         let w3 := put_out ("Command: " +:+ ("bash " +:+ runScript) +:+ nl)
                     (put_out ("Running LibreLane flow..." +:+ nl) w2) in
         let result := env_system env w3 ("bash " +:+ runScript) in
         let w4 := log_call (SysSystem ("bash " +:+ runScript) result) w3 in
         if result =? 0 then
           r = success /\
           w' = put_out ("LibreLane flow completed successfully!" +:+ nl) w4
         else
           r = failure /\
           exists tail,
             w' = put_err ("Error: LibreLane flow failed with exit code " +:+ tail) w4
       else
         r = failure /\
         w' = put_err ("Error: Failed to make LibreLane script executable" +:+ nl) w2
   else
     r = failure /\
     w' = put_err ("Error: Cannot create LibreLane run script" +:+ nl)
                  (log_call (SysOpen runScript false) w)) /\
  exists new,
    calls w' = calls w ++ new /\
    (length (filter (is_flow_run runScript) new) <= 1)%nat /\
    (length (filter is_system new) <= 2)%nat.
Proof.
  intros Hpath. cbv zeta.
  unfold runLibreLaneFlow, function, mbind, Body_bind.
  rewrite (empty_false _ Hpath). cbn [when mret Body_ret].
  unfold invoke at 1. unfold ofstream_ctor.
  destruct (env_open env w (outputDir +:+ "/run_librelane.sh")) eqn:Hopen; cbn.
  2:{ split; [done|]. eexists. split; [done|]. split; count_tac. }
  match goal with
  | |- context [writeLauncherScript env ?s ?a ?b ?c ?w0] =>
      destruct (writeLauncherScript_spec (R := LogicalResult) env s a b c w0)
        as (s' & w1 & -> & Hw1)
  end.
  cbn in Hw1. pose proof Hw1 as [(wr & Hcalls & Hwr) _ _ _ _].
  cbn in Hcalls |- *.
  assert (Hcount : forall tail,
            (length (filter is_system tail) <= 2)%nat ->
            (length (filter (is_flow_run (outputDir +:+ "/run_librelane.sh")) tail) <= 1)%nat ->
            (length (filter (is_flow_run (outputDir +:+ "/run_librelane.sh"))
                       (SysOpen (outputDir +:+ "/run_librelane.sh") true :: wr ++ tail)) <= 1)%nat /\
            (length (filter is_system
                       (SysOpen (outputDir +:+ "/run_librelane.sh") true :: wr ++ tail)) <= 2)%nat).
  { intros tail H2 H1.
    rewrite !filter_cons_False by (cbn; tauto).
    rewrite !filter_app, !(filter_writes _ _ Hwr) by (intros; cbn; tauto).
    done. }
  unfold invoke, system. cbn.
  set (r1 := env_system env w1 _).
  destruct (Z.eqb_spec r1 0) as [Hr1|Hr1]; cbn.
  - set (r2 := env_system env _ _).
    destruct (Z.eqb_spec r2 0) as [Hr2|Hr2]; cbn.
    + split.
      * exists w1. split; [done|]. fold r1.
        destruct (Z.eqb_spec r1 0) as [_|?]; [|done]. fold r2.
        by destruct (Z.eqb_spec r2 0) as [_|?].
      * exists (SysOpen (outputDir +:+ "/run_librelane.sh") true :: wr ++
                [SysSystem ("chmod +x " +:+ outputDir +:+ "/run_librelane.sh") r1;
                 SysSystem ("bash " +:+ outputDir +:+ "/run_librelane.sh") r2]).
        split; [rewrite Hcalls; by rewrite <- !(assoc (++))|].
        apply Hcount; count_tac.
    + split.
      * exists w1. split; [done|]. fold r1.
        destruct (Z.eqb_spec r1 0) as [_|?]; [|done]. fold r2.
        destruct (Z.eqb_spec r2 0) as [?|_]; [done|].
        split; [done|]. by eexists.
      * exists (SysOpen (outputDir +:+ "/run_librelane.sh") true :: wr ++
                [SysSystem ("chmod +x " +:+ outputDir +:+ "/run_librelane.sh") r1;
                 SysSystem ("bash " +:+ outputDir +:+ "/run_librelane.sh") r2]).
        split; [rewrite Hcalls; by rewrite <- !(assoc (++))|].
        apply Hcount; count_tac.
  - split.
    + exists w1. split; [done|]. fold r1.
      by destruct (Z.eqb_spec r1 0) as [?|_].
    + exists (SysOpen (outputDir +:+ "/run_librelane.sh") true :: wr ++
              [SysSystem ("chmod +x " +:+ outputDir +:+ "/run_librelane.sh") r1]).
      split; [rewrite Hcalls; by rewrite <- !(assoc (++))|].
      apply Hcount; count_tac.
Qed.

(** C4 at the path [/opt/librelane]: where every request succeeds the runner
    returns success, and where the launcher returns 256 it fails. *)
Lemma C4_witness :
  "/opt/librelane" <> EmptyString /\
  (runLibreLaneFlow Sample.envOk "/opt/librelane" "out" "dynamatic_design"
                    Sample.world0).1 = success /\
  (runLibreLaneFlow (envLauncherReturns 256) "/opt/librelane" "out"
                    "dynamatic_design" Sample.world0).1 = failure.
Proof.
  split; [discriminate|]. split.
  - pose proof (C4_flow_runner Sample.envOk "/opt/librelane" "out"
                  "dynamatic_design" Sample.world0) as H.
    cbv zeta in H.
    destruct (runLibreLaneFlow Sample.envOk _ _ _ _) as [r w'].
    destruct H as [H _]; [discriminate|].
    cbn in H. destruct H as (w1 & _ & ? & _). done.
  - pose proof (C4_flow_runner (envLauncherReturns 256) "/opt/librelane" "out"
                  "dynamatic_design" Sample.world0) as H.
    cbv zeta in H.
    destruct (runLibreLaneFlow (envLauncherReturns 256) _ _ _ _) as [r w'].
    destruct H as [H _]; [discriminate|].
    cbn in H. destruct H as (w1 & _ & ? & _). done.
Defined.

(** ** Frame rules for function bodies *)

Section Frames.

Context (rel : World -> World -> Prop) `{!PreOrder rel}.

Lemma frames_ret {R A} (a : A) : frames rel (mret a : Body R A).
Proof. intros w. reflexivity. Qed.

Lemma frames_return {R A} (r : R) : frames rel (return_ r : Body R A).
Proof. intros w. reflexivity. Qed.

Lemma frames_bind {R A B} (m : Body R A) (k : A -> Body R B) :
  frames rel m -> (forall a, frames rel (k a)) -> frames rel (m ≫= k).
Proof.
  intros Hm Hk w. unfold mbind, Body_bind. specialize (Hm w).
  destruct (m w) as [[a|r] w1]; cbn in *; [|done].
  etrans; [exact Hm|apply Hk].
Qed.

Lemma frames_effect {R} (f : World -> World) :
  (forall w, rel w (f w)) -> frames rel (effect f : Body R unit).
Proof. intros Hf w. apply Hf. Qed.

Lemma frames_invoke {R A} (f : World -> A * World) :
  (forall w, rel w (f w).2) -> frames rel (invoke f : Body R A).
Proof.
  intros Hf w. unfold invoke. specialize (Hf w). by destruct (f w).
Qed.

Lemma frames_when {R} (c : bool) (b : Body R unit) :
  frames rel b -> frames rel (when c b).
Proof. intros Hb. destruct c; [done|apply frames_ret]. Qed.

Lemma frames_for_each {R A S} (l : list A) (body : S -> A -> Body R S) :
  (forall s x, frames rel (body s x)) ->
  forall acc, frames rel (for_each l body acc).
Proof.
  intros Hb. induction l as [|x l IH]; intros acc; cbn.
  - apply frames_ret.
  - apply frames_bind; [apply Hb|apply IH].
Qed.

Lemma frames_function {R} (b : Body R R) :
  frames rel b -> forall w, rel w (function b w).2.
Proof.
  intros Hb w. unfold function. specialize (Hb w).
  by destruct (b w) as [[r|r] w'].
Qed.

End Frames.

(** Splits a body along its statements; what is left are its calls. *)
Ltac frames_tac :=
  repeat first
    [ apply frames_ret; solve [typeclasses eauto]
    | apply frames_return; solve [typeclasses eauto]
    | apply frames_bind; [typeclasses eauto| |intros ?]
    | apply frames_when; [typeclasses eauto|]
    | apply frames_for_each; [typeclasses eauto|intros ? ?]
    | apply frames_effect
    | apply frames_invoke
    | progress cbv zeta
    | lazymatch goal with
      | |- frames _ (match ?x with _ => _ end) => destruct x
      end ].

(** ** Three frames *)

Global Instance no_mkdir_preorder : PreOrder no_mkdir.
Proof. split; [done|]. intros w1 w2 w3. unfold no_mkdir. congruence. Qed.

Global Instance keeps_file_preorder p : PreOrder (keeps_file p).
Proof. split; [done|]. intros w1 w2 w3. unfold keeps_file. congruence. Qed.

Global Instance errs_grow_preorder : PreOrder errs_grow.
Proof.
  split.
  - intros w. exists EmptyString. by rewrite append_nil_r.
  - intros w1 w2 w3 [e1 H1] [e2 H2]. exists (e1 +:+ e2).
    by rewrite H2, H1, append_assoc.
Qed.

Lemma mkdir_attempts_snoc l c :
  mkdir_attempts (l ++ [c]) = (mkdir_attempts l + if is_mkdir c then 1 else 0)%nat.
Proof.
  unfold mkdir_attempts. rewrite filter_app, length_app. f_equal.
  destruct c; by vm_compute.
Qed.

Lemma no_mkdir_calls w w' c :
  calls w' = calls w ++ [c] -> is_mkdir c = false -> no_mkdir w w'.
Proof.
  intros Hc Hm. unfold no_mkdir. rewrite Hc, mkdir_attempts_snoc, Hm. lia.
Qed.

Lemma writes_only_no_mkdir path w w' : writes_only path w w' -> no_mkdir w w'.
Proof.
  intros [(new & Hc & Hnew) _ _ _ _]. unfold no_mkdir, mkdir_attempts.
  rewrite Hc, filter_app, (filter_writes _ _ Hnew), app_nil_r; [done|].
  intros; cbn; tauto.
Qed.

Lemma writes_only_keeps_file path p w w' :
  writes_only path w w' -> p <> path -> keeps_file p w w'.
Proof. intros [_ _ _ _ Hf] Hp. by apply Hf. Qed.

Section StageFrames.

Context (env : Env).

Lemma ofstream_ctor_no_mkdir path w : no_mkdir w (ofstream_ctor env path w).2.
Proof.
  unfold ofstream_ctor.
  destruct (env_open env w path); by eapply no_mkdir_calls.
Qed.

Lemma ofstream_ctor_keeps_file path p w :
  p <> path -> keeps_file p w (ofstream_ctor env path w).2.
Proof.
  intros Hp. unfold ofstream_ctor, keeps_file.
  destruct (env_open env w path); cbn; [|done]. by rewrite lookup_insert_ne.
Qed.

Lemma ofstream_ctor_errs path w : errs (ofstream_ctor env path w).2 = errs w.
Proof. unfold ofstream_ctor. by destruct (env_open env w path). Qed.

Lemma ofstream_inserts_writes s texts w :
  writes_only (os_path s) w (ofstream_inserts env s texts w).2.
Proof.
  destruct (ofstream_inserts env s texts w) as [s' w'] eqn:E.
  by apply ofstream_inserts_spec in E as [H _].
Qed.

Lemma ofstream_inserts_no_mkdir s texts w :
  no_mkdir w (ofstream_inserts env s texts w).2.
Proof. eapply writes_only_no_mkdir, ofstream_inserts_writes. Qed.

Lemma ofstream_inserts_keeps_file p s texts w :
  p <> os_path s -> keeps_file p w (ofstream_inserts env s texts w).2.
Proof. intros Hp. eapply writes_only_keeps_file; [apply ofstream_inserts_writes|done]. Qed.

Lemma system_no_mkdir cmd w : no_mkdir w (system env cmd w).2.
Proof. by eapply no_mkdir_calls. Qed.

Lemma put_err_no_mkdir s w : no_mkdir w (put_err s w).
Proof. done. Qed.

Lemma put_out_no_mkdir s w : no_mkdir w (put_out s w).
Proof. done. Qed.

(** The flow runner attempts no directory creation. *)
Lemma runLibreLaneFlow_no_mkdir path out name w :
  no_mkdir w (runLibreLaneFlow env path out name w).2.
Proof.
  unfold runLibreLaneFlow. apply (frames_function no_mkdir).
  frames_tac;
    auto using put_err_no_mkdir, put_out_no_mkdir, ofstream_ctor_no_mkdir,
               ofstream_inserts_no_mkdir, system_no_mkdir.
Qed.

End StageFrames.

(** ** The paths of the artifacts are distinct *)

(** No text followed by [.v] is the literal at hand. *)
Ltac differ_at_end d H :=
  repeat (destruct d as [|? d];
          [discriminate H|first [discriminate H|injection H as _ H]]).

Lemma design_file_ne_yosys out d :
  out +:+ "/" +:+ d +:+ ".v" <> out +:+ "/synthesize.tcl".
Proof.
  intros H. apply (inj (String.app out)) in H. injection H as H.
  differ_at_end d H.
Qed.

Lemma design_file_ne_config out d :
  out +:+ "/" +:+ d +:+ ".v" <> out +:+ "/config.tcl".
Proof.
  intros H. apply (inj (String.app out)) in H. injection H as H.
  differ_at_end d H.
Qed.

Lemma design_file_ne_launcher out d :
  out +:+ "/" +:+ d +:+ ".v" <> out +:+ "/run_librelane.sh".
Proof.
  intros H. apply (inj (String.app out)) in H. injection H as H.
  differ_at_end d H.
Qed.

(** ** Frames of the stages *)

(** Sequencing when the continuation needs a fact [Q] about the value. *)
Lemma frames_bind_post (rel : World -> World -> Prop) `{!PreOrder rel}
    {R A B} (Q : A -> Prop) (m : Body R A) (k : A -> Body R B) :
  (forall w, rel w (m w).2 /\ forall a, (m w).1 = Next a -> Q a) ->
  (forall a, Q a -> frames rel (k a)) ->
  frames rel (m ≫= k).
Proof.
  intros Hm Hk w. unfold mbind, Body_bind. destruct (Hm w) as [Hrel HQ].
  destruct (m w) as [[a|r] w1]; cbn in *; [|done].
  etrans; [exact Hrel|]. by apply Hk, HQ.
Qed.

Section Stages.

Context (env : Env) (conc : Concretizer).

(** A stream constructed on [path], then used for insertions, keeps every
    other file. *)
Lemma open_then_insert_keeps {R B} p path (k : ofstream -> Body R B) :
  p <> path ->
  (forall s, os_path s = path -> frames (keeps_file p) (k s)) ->
  frames (keeps_file p) (invoke (ofstream_ctor env path) ≫= k).
Proof.
  intros Hp Hk.
  apply (frames_bind_post _ (fun s => os_path s = path)); [|done].
  intros w. split.
  - unfold invoke. pose proof (ofstream_ctor_keeps_file env path p w Hp) as H.
    by destruct (ofstream_ctor env path w).
  - unfold invoke, ofstream_ctor. by intros a [= <-].
Qed.

Lemma writeLauncherScript_keeps {R} p s path out name :
  p <> os_path s ->
  frames (keeps_file p) (writeLauncherScript (R := R) env s path out name).
Proof.
  intros Hp w.
  destruct (writeLauncherScript_spec (R := R) env s path out name w)
    as (s' & w' & -> & H).
  by eapply writes_only_keeps_file.
Qed.

(** The flow runner touches no file but its launcher script. *)
Lemma runLibreLaneFlow_keeps_file p path out name w :
  p <> out +:+ "/run_librelane.sh" ->
  keeps_file p w (runLibreLaneFlow env path out name w).2.
Proof.
  intros Hp. unfold runLibreLaneFlow. apply (frames_function (keeps_file p)).
  apply frames_bind; [typeclasses eauto|frames_tac; done|intros _].
  cbv zeta. apply open_then_insert_keeps; [done|]. intros s Hs.
  apply frames_bind; [typeclasses eauto|frames_tac; done|intros _].
  apply frames_bind; [typeclasses eauto| |intros ?].
  - apply writeLauncherScript_keeps. by rewrite Hs.
  - frames_tac; done.
Qed.

Lemma main_writeYosys_keeps p args :
  p <> outputDir args +:+ "/synthesize.tcl" ->
  frames (keeps_file p) (main_writeYosys env args).
Proof.
  intros Hp. unfold main_writeYosys. cbv zeta.
  apply open_then_insert_keeps; [done|]. intros s Hs.
  destruct (os_is_open s); frames_tac.
  intros w. apply ofstream_inserts_keeps_file. by rewrite Hs.
Qed.

Lemma main_writeConfig_keeps p args :
  p <> outputDir args +:+ "/config.tcl" ->
  frames (keeps_file p) (main_writeConfig env args).
Proof.
  intros Hp. unfold main_writeConfig. cbv zeta.
  apply open_then_insert_keeps; [done|]. intros s Hs.
  destruct (os_is_open s); frames_tac.
  intros w. apply ofstream_inserts_keeps_file. by rewrite Hs.
Qed.

Lemma main_finish_keeps p args designFile yosysFile configFile :
  p <> outputDir args +:+ "/run_librelane.sh" ->
  frames (keeps_file p) (main_finish env args designFile yosysFile configFile).
Proof.
  intros Hp. unfold main_finish. frames_tac; try done.
  intros w. by apply runLibreLaneFlow_keeps_file.
Qed.

(** No stage but the creation of the output directory attempts one. *)
Lemma main_parseInput_no_mkdir args : frames no_mkdir (main_parseInput env args).
Proof.
  unfold main_parseInput. frames_tac; try done.
  intros w. by eapply no_mkdir_calls.
Qed.

Lemma main_parseConfigs_no_mkdir args : frames no_mkdir (main_parseConfigs env args).
Proof.
  unfold main_parseConfigs. frames_tac; try done.
  intros w. unfold parseFromFile.
  destruct (env_parseFromFile env w _); by eapply no_mkdir_calls.
Qed.

Lemma main_export_no_mkdir args module config :
  (forall info w, no_mkdir w (concretizeExternalModules info w).2) ->
  frames no_mkdir (main_export env args module config).
Proof.
  intros Hconc.
  unfold main_export, main_concretize, main_writeDesign, writeModuleStub,
    main_writeYosys, main_writeConfig, main_finish.
  frames_tac;
    auto using put_err_no_mkdir, put_out_no_mkdir, ofstream_ctor_no_mkdir,
               ofstream_inserts_no_mkdir, runLibreLaneFlow_no_mkdir.
Qed.

End Stages.

(** ** Early returns *)

Lemma exits_ret {R A} (v : R) (a : A) : exits v (mret a : Body R A).
Proof. by intros w r w'. Qed.

Lemma exits_return {R A} (v : R) : exits v (return_ v : Body R A).
Proof. by intros w r w' [= <- _]. Qed.

Lemma exits_effect {R} (v : R) f : exits v (effect f : Body R unit).
Proof. by intros w r w'. Qed.

Lemma exits_invoke {R A} (v : R) (f : World -> A * World) :
  exits v (invoke f : Body R A).
Proof. intros w r w'. unfold invoke. by destruct (f w). Qed.

Lemma exits_bind {R A B} (v : R) (m : Body R A) (k : A -> Body R B) :
  exits v m -> (forall a, exits v (k a)) -> exits v (m ≫= k).
Proof.
  intros Hm Hk w r w'. unfold mbind, Body_bind.
  destruct (m w) as [[a|r0] w1] eqn:E.
  - apply Hk.
  - intros [= <- <-]. by eapply Hm.
Qed.

Lemma exits_when {R} (v : R) (c : bool) (b : Body R unit) :
  exits v b -> exits v (when c b).
Proof. intros Hb. destruct c; [done|apply exits_ret]. Qed.

Lemma exits_for_each {R A S} (v : R) (l : list A) (body : S -> A -> Body R S) :
  (forall s x, exits v (body s x)) -> forall acc, exits v (for_each l body acc).
Proof.
  intros Hb. induction l as [|x l IH]; intros acc; cbn.
  - apply exits_ret.
  - apply exits_bind; [apply Hb|apply IH].
Qed.

Ltac exits_tac :=
  repeat first
    [ apply exits_ret
    | apply exits_return
    | apply exits_effect
    | apply exits_invoke
    | apply exits_bind; [|intros ?]
    | apply exits_when
    | apply exits_for_each; intros ? ?
    | progress cbv zeta
    | lazymatch goal with
      | |- exits _ (match ?x with _ => _ end) => destruct x
      end ].

(** [main] leaves early with code 1 only. *)
Lemma main_setup_exits env args : exits 1 (main_setup env args).
Proof.
  unfold main_setup, main_parseInput, main_createOutputDirectory,
    main_parseConfigs.
  exits_tac.
Qed.

Lemma main_concretize_exits (conc : Concretizer) args module config :
  exits 1 (main_concretize args module config).
Proof. unfold main_concretize. exits_tac. Qed.

(** ** Emission *)

Section Emission.

Context (env : Env) (conc : Concretizer).

Lemma main_writeDesign_fail args module w :
  env_open env w (designFile args) = false ->
  main_writeDesign env args module w =
    (Return 1,
     put_err ("Error: Could not create design file '" +:+ designFile args +:+
              "'" +:+ nl)
             (log_call (SysOpen (designFile args) false) w)).
Proof.
  intros Hopen. unfold main_writeDesign, mbind, Body_bind, invoke, ofstream_ctor.
  fold (designFile args). by rewrite Hopen.
Qed.

Lemma writeModuleStub_good s op w c :
  (forall w0 t, env_write env w0 (os_path s) t = true) ->
  os_is_open s = true -> os_good s = true ->
  files w !! os_path s = Some c ->
  exists w',
    writeModuleStub env s op w = (Next s, w') /\
    files w' !! os_path s = Some (c +:+ moduleStub op).
Proof.
  intros Hw Hopen Hgood Hc.
  unfold writeModuleStub, mbind, Body_bind, invoke.
  edestruct (ofstream_inserts_good env) as (w1 & -> & H1); [done..|].
  edestruct (ofstream_inserts_good env) as (w2 & -> & H2); [done..|].
  edestruct (ofstream_inserts_good env) as (w3 & -> & H3); [done..|].
  edestruct (ofstream_inserts_good env) as (w4 & -> & H4); [done..|].
  exists w4. split; [done|]. rewrite H4. f_equal.
  cbn [foldr]. unfold moduleStub. by rewrite !append_assoc.
Qed.

Lemma writeModuleStubs_good modules : forall s w c,
  (forall w0 t, env_write env w0 (os_path s) t = true) ->
  os_is_open s = true -> os_good s = true ->
  files w !! os_path s = Some c ->
  exists w',
    for_each modules (writeModuleStub env) s w = (Next s, w') /\
    files w' !! os_path s = Some (c +:+ designText modules).
Proof.
  induction modules as [|op modules IH]; intros s w c Hw Hopen Hgood Hc; cbn.
  - exists w. by rewrite append_nil_r.
  - unfold mbind, Body_bind.
    destruct (writeModuleStub_good s op w c) as (w1 & -> & H1); [done..|].
    destruct (IH s w1 _ Hw Hopen Hgood H1) as (w2 & -> & H2).
    exists w2. by rewrite H2, append_assoc.
Qed.

Lemma main_writeDesign_ok args module w :
  (forall w0 t, env_write env w0 (designFile args) t = true) ->
  env_open env w (designFile args) = true ->
  exists w',
    main_writeDesign env args module w = (Next (designFile args), w') /\
    files w' !! designFile args = Some (designText (hwModules module)).
Proof.
  intros Hw Hopen.
  unfold main_writeDesign, mbind, Body_bind, invoke, ofstream_ctor.
  fold (designFile args). rewrite Hopen. cbn [negb when mret Body_ret os_is_open].
  edestruct (writeModuleStubs_good (hwModules module)) as (w' & -> & H');
    [done..| |].
  - cbn. apply lookup_insert_eq.
  - exists w'. by split.
Qed.

End Emission.

(** ** Failures of the emission stage *)

(** C2, as the claim states it, fails.  When synthesize.tcl cannot be
    created the run still exits with code 0, prints no diagnostic and
    reports the script as written; and when every insertion into the
    design file fails, the run exits with code 0 as well, without a
    diagnostic, over an empty design file. *)
Lemma C2_counterexample :
  (let run :=
     Sample.run (Sample.envBlocking ["out/synthesize.tcl"]) Sample.args in
   run.1 = 0 /\ errs run.2 = EmptyString /\
   SysOpen "out/synthesize.tcl" false ∈ calls run.2 /\
   files run.2 !! "out/synthesize.tcl" = None) /\
  (let run :=
     Sample.run (Sample.envRefusing ["out/dynamatic_design.v"]) Sample.args in
   run.1 = 0 /\ errs run.2 = EmptyString /\
   SysWrite "out/dynamatic_design.v" "// Module: " false ∈ calls run.2 /\
   files run.2 !! "out/dynamatic_design.v" = Some EmptyString).
Proof.
  cbv zeta. repeat split; try (vm_compute; reflexivity); in_list.
Qed.

(** C2, amended: when the run has reached the emission stage and the design
    file cannot be created, [main] exits with code 1 after printing a
    diagnostic that names the file, and writes nothing; and [main] exits
    with code 0 only if it reached the emission stage and the design file
    was created.  (What a failed creation of synthesize.tcl or config.tcl,
    or a failed insertion, should do is left open.) *)
Theorem C2_design_file_creation
    (env : Env) (conc : Concretizer) (args : Options) (w0 : World) :
  (forall module w1,
     reaches_emission env conc args module w0 w1 ->
     env_open env w1 (designFile args) = false ->
     main env args w0 =
       (1, put_err ("Error: Could not create design file '" +:+
                    designFile args +:+ "'" +:+ nl)
                   (log_call (SysOpen (designFile args) false) w1))) /\
  (forall wf,
     main env args w0 = (0, wf) ->
     exists module w1,
       reaches_emission env conc args module w0 w1 /\
       env_open env w1 (designFile args) = true).
Proof.
  split.
  - intros module w1 (config & w & info & Hsetup & Hconc) Hopen.
    unfold main, function, mbind, Body_bind. rewrite Hsetup.
    unfold main_export, mbind, Body_bind. rewrite Hconc.
    by rewrite (main_writeDesign_fail env args module w1 Hopen).
  - intros wf. unfold main, function, mbind, Body_bind.
    destruct (main_setup env args w0) as [[[module config]|r] w] eqn:Hsetup.
    2:{ apply main_setup_exits in Hsetup as ->. discriminate. }
    unfold main_export, mbind, Body_bind.
    destruct (main_concretize args module config w) as [[info|r] w1] eqn:Hconc.
    2:{ apply main_concretize_exits in Hconc as ->. discriminate. }
    destruct (env_open env w1 (designFile args)) eqn:Hopen.
    + intros _. exists module, w1. split; [|done]. by exists config, w, info.
    + rewrite (main_writeDesign_fail env args module w1 Hopen). discriminate.
Qed.

(** C2 at a run whose design file cannot be created, and at the first
    end-to-end scenario, which exits with code 0. *)
Lemma C2_witness :
  (Sample.run (Sample.envBlocking ["out/dynamatic_design.v"]) Sample.args).1 = 1 /\
  exists module w1,
    reaches_emission Sample.envOk (spec_concretizeExternalModules Sample.envOk)
                     Sample.args module Sample.world0 w1 /\
    env_open Sample.envOk w1 (designFile Sample.args) = true.
Proof.
  unfold Sample.run.
  split.
  - destruct (C2_design_file_creation
                (Sample.envBlocking ["out/dynamatic_design.v"])
                (spec_concretizeExternalModules
                   (Sample.envBlocking ["out/dynamatic_design.v"]))
                Sample.args Sample.world0) as [H _].
    erewrite H; [reflexivity| |reflexivity].
    eexists _, _, _. split; reflexivity.
  - destruct (C2_design_file_creation
                Sample.envOk (spec_concretizeExternalModules Sample.envOk)
                Sample.args Sample.world0) as [_ H].
    eapply H. vm_compute. reflexivity.
Defined.

(** ** The design file *)




(** ** The output directory *)

Lemma path_chain_self s : forall acc, acc +:+ s ∈ path_chain acc s.
Proof.
  induction s as [|c s IH]; intros acc; cbn.
  - rewrite append_nil_r. set_solver.
  - apply elem_of_app. right.
    replace (acc +:+ String c s) with ((acc +:+ String c EmptyString) +:+ s)
      by (by rewrite append_assoc).
    apply IH.
Qed.

Lemma main_parseInput_next env args w0 module w :
  main_parseInput env args w0 = (Next module, w) ->
  w = log_call (SysGetFile (inputFilename args) true) w0.
Proof.
  unfold main_parseInput, mbind, Body_bind, invoke, getFileOrSTDIN.
  destruct (env_getFile env w0 (inputFilename args)) as [msg|buffer]; [done|].
  destruct (env_parseSourceFile env buffer); [|done]. by intros [= _ <-].
Qed.

Section OutputDirectory.

Context (env : Env) (conc : Concretizer).

(** [main] with the stages of its setup in line. *)
Lemma main_unfold args w0 :
  main env args w0 =
    function (main_parseInput env args ≫= fun module =>
              main_createOutputDirectory env args ≫= fun _ =>
              main_parseConfigs env args ≫= fun config =>
              main_export env args module config) w0.
Proof.
  unfold main, main_setup, function, mbind, Body_bind.
  destruct (main_parseInput env args w0) as [[module|r] w]; [|done].
  destruct (main_createOutputDirectory env args w) as [[[]|r] w1]; [|done].
  by destruct (main_parseConfigs env args w1) as [[config|r] w2].
Qed.

Lemma main_after_dir_no_mkdir args module :
  (forall info w, no_mkdir w (concretizeExternalModules info w).2) ->
  frames no_mkdir (main_parseConfigs env args ≫= fun config =>
                   main_export env args module config).
Proof.
  intros Hconc. apply frames_bind; [typeclasses eauto| |intros config].
  - apply main_parseConfigs_no_mkdir.
  - by apply main_export_no_mkdir.
Qed.

(** The successful creation of a directory: it exists afterwards, with all
    its parents, and a pre-existing directory is left as it is. *)
Lemma create_directories_ok path w w' :
  create_directories env path w = (None, w') ->
  path ∈ dirs w' /\
  (forall parent, parent ∈ path_chain EmptyString path -> path ∈ dirs w \/ parent ∈ dirs w') /\
  (path ∈ dirs w -> w' = log_call (SysCreateDirectories path true) w) /\
  calls w' = calls w ++ [SysCreateDirectories path true] /\
  files w' = files w.
Proof.
  unfold create_directories. case_bool_decide as Hin.
  - intros [= <-]. repeat split; auto.
  - destruct (env_mkdir env w path); [done|]. intros [= <-]. cbn.
    repeat split; try done.
    + apply elem_of_union. right. apply elem_of_list_to_set.
      apply (path_chain_self path EmptyString).
    + intros parent Hp. right. apply elem_of_union. right.
      by apply elem_of_list_to_set.
Qed.

End OutputDirectory.

(** C7, as the claim states it, fails: a run whose input file cannot be read
    exits with code 1 before the output directory is looked at, so in that
    run the creation is attempted zero times, not once. *)
Lemma C7_counterexample :
  let run := Sample.run Sample.envNoInput Sample.args in
  run.1 = 1 /\ mkdir_attempts (calls run.2) = 0%nat /\
  calls run.2 = [SysGetFile "design.mlir" false].
Proof. cbv zeta. repeat split; vm_compute; reflexivity. Qed.

(** C7, amended: the creation of the output directory is attempted at most
    once per run, and exactly once in every run whose input design was read
    and parsed (the resolution stage is taken not to create directories of
    its own).  A directory that exists already is no error: the stage falls
    through and changes nothing; after a successful creation the directory
    exists, with its parents when it was new, so that creating it again
    changes nothing either.  If the
    creation fails, the run exits with code 1 with a diagnostic, and no file
    is opened or written: the only requests of the run are the reading of
    the input and the failed creation. *)
Theorem C7_output_directory
    (env : Env) (conc : Concretizer) (args : Options) (w0 : World) :
  (forall info w, no_mkdir w (concretizeExternalModules info w).2) ->
  let '(code, wf) := main env args w0 in
  (mkdir_attempts (calls wf) <= mkdir_attempts (calls w0) + 1)%nat /\
  forall module w,
    main_parseInput env args w0 = (Next module, w) ->
    mkdir_attempts (calls wf) = (mkdir_attempts (calls w0) + 1)%nat /\
    (outputDir args ∈ dirs w0 ->
     main_createOutputDirectory env args w =
       (Next tt, log_call (SysCreateDirectories (outputDir args) true) w)) /\
    (forall w',
       create_directories env (outputDir args) w = (None, w') ->
       outputDir args ∈ dirs w' /\
       (outputDir args ∉ dirs w0 ->
        forall parent, parent ∈ path_chain EmptyString (outputDir args) ->
                       parent ∈ dirs w') /\
       create_directories env (outputDir args) w' =
         (None, log_call (SysCreateDirectories (outputDir args) true) w')) /\
    (forall msg w',
       create_directories env (outputDir args) w = (Some msg, w') ->
       code = 1 /\
       files wf = files w0 /\
       calls wf = calls w0 ++ [SysGetFile (inputFilename args) true;
                               SysCreateDirectories (outputDir args) false] /\
       errs wf = errs w0 +:+ "Error: Could not create output directory '" +:+
                 outputDir args +:+ "': " +:+ msg +:+ nl).
Proof.
  intros Hconc. rewrite main_unfold. unfold function, mbind at 1, Body_bind at 1.
  pose proof (main_parseInput_no_mkdir env args w0) as Hparse.
  destruct (main_parseInput env args w0) as [[module|r] w] eqn:Einput; cbn in Hparse.
  2:{ split; [unfold no_mkdir in Hparse; lia|]. intros ? ? [=]. }
  pose proof (main_parseInput_next _ _ _ _ _ Einput) as Hw.
  unfold mbind at 1, Body_bind at 1.
  unfold main_createOutputDirectory at 1, mbind at 1, Body_bind at 1, invoke.
  destruct (create_directories env (outputDir args) w) as [[msg|] w1] eqn:Edir.
  - (* the creation fails *)
    cbn.
    assert (Hw1 : w1 = log_call (SysCreateDirectories (outputDir args) false) w).
    { unfold create_directories in Edir. case_bool_decide; [done|].
      destruct (env_mkdir env w (outputDir args)); [by injection Edir as _ <-|done]. }
    subst w1 w. split.
    + unfold no_mkdir in *. cbn. rewrite mkdir_attempts_snoc. cbn.
      cbn in Hparse. lia.
    + intros module' w' [= <- <-]. split; [|split; [|split]].
      * cbn. rewrite !mkdir_attempts_snoc. cbn. lia.
      * intros Hin. unfold create_directories in Edir. cbn in Edir.
        by rewrite bool_decide_eq_true_2 in Edir.
      * intros w' Hnone. by rewrite Edir in Hnone.
      * intros msg' w' Hsome. rewrite Edir in Hsome. injection Hsome as <- _.
        cbn. repeat split. by rewrite <- (assoc (++)).
  - (* the directory exists or was created *)
    destruct (create_directories_ok env _ _ _ Edir)
      as (Hin & Hparents & Hpre & Hcalls & _).
    assert (H1 : outputDir args ∈ dirs w0 ->
                 main_createOutputDirectory env args w =
                   (Next tt, log_call (SysCreateDirectories (outputDir args) true) w)).
    { intros Hpre'. unfold main_createOutputDirectory, mbind, Body_bind, invoke.
      rewrite Edir, Hpre; [done|]. by rewrite Hw. }
    assert (H2 : forall w',
                 create_directories env (outputDir args) w = (None, w') ->
                 outputDir args ∈ dirs w' /\
                 (outputDir args ∉ dirs w0 ->
                  forall parent, parent ∈ path_chain EmptyString (outputDir args) ->
                                 parent ∈ dirs w') /\
                 create_directories env (outputDir args) w' =
                   (None, log_call (SysCreateDirectories (outputDir args) true) w')).
    { intros w' Hnone. rewrite Edir in Hnone. injection Hnone as <-.
      split; [done|split].
      - intros Hnew parent Hparent.
        destruct (Hparents parent Hparent) as [Hold|Hnow]; [|done].
        by rewrite Hw in Hold.
      - unfold create_directories. by rewrite bool_decide_eq_true_2. }
    pose proof (main_after_dir_no_mkdir env conc args module Hconc w1) as Hrest.
    cbn [mret Body_ret].
    assert (Hcount : forall wf, no_mkdir w1 wf ->
                     mkdir_attempts (calls wf) =
                       (mkdir_attempts (calls w0) + 1)%nat).
    { intros wf Hwf. unfold no_mkdir in *.
      rewrite Hwf, Hcalls, mkdir_attempts_snoc. cbn. lia. }
    destruct ((main_parseConfigs env args ≫= _) w1) as [[z|z] wf] eqn:Erest;
      cbn in Hrest; specialize (Hcount wf Hrest);
      (split; [lia|]);
      intros module' w' [= <- <-];
      (split; [done|split; [done|split; [done|]]]);
      intros msg' w' Hsome; by rewrite Edir in Hsome.
Qed.

(** ** Resolution against the modelled concretizer *)

Section ResolutionProps.

Context (env : Env).

Lemma ofstream_insert_no_mkdir s text w :
  no_mkdir w (ofstream_insert env s text w).2.
Proof.
  destruct (ofstream_insert env s text w) as [s' w'] eqn:E.
  apply ofstream_insert_spec in E as [H _]. by eapply writes_only_no_mkdir.
Qed.

Lemma ofstream_insert_errs s text w :
  errs (ofstream_insert env s text w).2 = errs w.
Proof.
  destruct (ofstream_insert env s text w) as [s' w'] eqn:E.
  by apply ofstream_insert_spec in E as [[] _].
Qed.

Lemma concretize_no_mkdir ref rule out w :
  no_mkdir w (concretize env ref rule out w).2.
Proof.
  unfold concretize. apply (frames_function no_mkdir).
  frames_tac; auto using ofstream_ctor_no_mkdir, ofstream_insert_no_mkdir.
Qed.

Lemma concretize_errs ref rule out w :
  errs (concretize env ref rule out w).2 = errs w.
Proof.
  unfold concretize, function, mbind, Body_bind, invoke.
  destruct (rule_generate rule _ _) as [text|]; [|done].
  pose proof (ofstream_ctor_errs env (out +:+ "/" +:+ ref_name ref +:+ ".v") w) as H1.
  destruct (ofstream_ctor env _ w) as [s w1]. cbn in H1.
  destruct (os_is_open s); [|done]. cbn.
  pose proof (ofstream_insert_errs s text w1) as H2.
  destruct (ofstream_insert env s text w1) as [s' w2]. cbn in H2.
  destruct (os_good s'); cbn; congruence.
Qed.

(** The modelled resolution attempts no directory creation. *)
Lemma spec_concretize_no_mkdir info w :
  no_mkdir w (spec_concretizeExternalModules env info w).2.
Proof.
  unfold spec_concretizeExternalModules. apply (frames_function no_mkdir).
  unfold resolveReference. frames_tac; try done.
  intros w'. apply concretize_no_mkdir.
Qed.

(** The resolution loop: it never returns early, it only adds to the error
    stream, a lowered flag stays lowered, and every reference without a
    matching rule lowers the flag and is named in the error stream. *)
Lemma resolve_loop config out refs : forall acc w,
  exists ok externals w',
    for_each refs (resolveReference env config out) acc w =
      (Next (ok, externals), w') /\
    errs_grow w w' /\
    (acc.1 = false -> ok = false) /\
    (forall ref, ref ∈ refs -> getMatchingComponent config ref = None ->
       ok = false /\ contains (ref_name ref) (errs w')).
Proof.
  induction refs as [|r refs IH]; intros acc w.
  - exists acc.1, acc.2, w. destruct acc. cbn.
    split; [done|split; [reflexivity|split; [done|]]].
    intros ref Href. by apply elem_of_nil in Href.
  - cbn [for_each]. unfold mbind at 1, Body_bind at 1, resolveReference at 1.
    destruct (getMatchingComponent config r) as [rule|] eqn:Hmatch.
    + (* matched: the concretizer runs *)
      unfold mbind, Body_bind, invoke.
      pose proof (concretize_errs r rule out w) as Herrs.
      destruct (concretize env r rule out w) as [[m|] w1]; cbn in Herrs |- *.
      * destruct (IH (acc.1, acc.2 ++ [(r, m)]) w1)
          as (ok & exts & w' & -> & [e He] & Hflag & Hnamed).
        exists ok, exts, w'.
        split; [done|split; [|split; [done|]]].
        -- exists e. congruence.
        -- intros ref Href Hnone. apply Hnamed; [|done].
           apply elem_of_cons in Href as [->|Href]; [congruence|done].
      * destruct (IH (false, acc.2) (put_err
           ("Error: could not concretize external module '" +:+ ref_name r +:+
            "'" +:+ nl) w1))
          as (ok & exts & w' & -> & [e He] & Hflag & Hnamed).
        exists ok, exts, w'.
        split; [done|split; [|split]].
        -- eexists. rewrite He. cbn. rewrite Herrs, append_assoc. reflexivity.
        -- intros _. by apply Hflag.
        -- intros ref Href Hnone. apply Hnamed; [|done].
           apply elem_of_cons in Href as [->|Href]; [congruence|done].
    + (* no rule: the reference is reported *)
      unfold mbind, Body_bind, errs_print, effect. cbn.
      destruct (IH (false, acc.2) (put_err
         ("Error: no generator rule matches external module '" +:+ ref_name r +:+
          "'" +:+ nl) w))
        as (ok & exts & w' & -> & [e He] & Hflag & Hnamed).
      exists ok, exts, w'.
      split; [done|split; [|split]].
      * eexists. rewrite He. cbn. rewrite append_assoc. reflexivity.
      * intros _. by apply Hflag.
      * intros ref Href Hnone.
        apply elem_of_cons in Href as [->|Href]; [|by apply Hnamed].
        split; [by apply Hflag|].
        rewrite He. cbn. apply contains_app_l, contains_app_r.
        apply contains_app_r, contains_app_l, contains_refl.
Qed.

End ResolutionProps.

(** C8: against the modelled resolution stage, when a run reaches the
    resolution and an external reference of the design has no matching rule
    in the loaded configuration, the run exits with code 1 and the text on
    the error stream contains the name of that reference; this holds for
    each such reference, so every unresolved reference is named. *)
Theorem C8_unresolved_references_named
    (env : Env) (args : Options) (w0 w : World) (module : ModuleOp)
    (config : RTLConfiguration) (ref : ModuleReference) :
  main_setup env args w0 = (Next (module, config), w) ->
  ref ∈ hwExterns module ->
  getMatchingComponent config ref = None ->
  let run := main env (conc := spec_concretizeExternalModules env) args w0 in
  run.1 = 1 /\ contains (ref_name ref) (errs run.2).
Proof.
  intros Hsetup Href Hnone. cbv zeta.
  destruct (main env args w0) as [code wf] eqn:E. cbn [fst snd]. revert E.
  unfold main, function, mbind at 1, Body_bind at 1. rewrite Hsetup.
  unfold main_export, mbind at 1, Body_bind at 1.
  unfold main_concretize, mbind at 1, Body_bind at 1, invoke.
  unfold concretizeExternalModules, spec_concretizeExternalModules at 1.
  unfold function, mbind at 1, Body_bind at 1. cbn [ASICExportInfo_new
    ASICExportInfo.modOp ASICExportInfo.config ASICExportInfo.outputPath
    ASICExportInfo.externals].
  destruct (resolve_loop env config (outputDir args) (hwExterns module)
              (true, []) w) as (ok & exts & w' & -> & _ & _ & Hnamed).
  destruct (Hnamed ref Href Hnone) as [-> Hin].
  cbn. intros [= <- <-]. split; [done|]. by apply contains_app_l.
Qed.

(** C8 at the second end-to-end scenario: the diagnostic names [adder]. *)
Lemma C8_witness :
  let run := Sample.run Sample.envNoRule Sample.args in
  run.1 = 1 /\ contains "adder" (errs run.2).
Proof.
  unfold Sample.run.
  eapply (C8_unresolved_references_named Sample.envNoRule Sample.args
            Sample.world0 _ Sample.design _ Sample.adder).
  - reflexivity.
  - apply list_elem_of_In. by left.
  - reflexivity.
Defined.

(** C7 at a run whose output directory cannot be created, with the modelled
    resolution stage, which attempts no directory creation. *)
Lemma C7_witness :
  let run := Sample.run Sample.envNoDir Sample.args in
  (mkdir_attempts (calls run.2) <= 1)%nat.
Proof.
  unfold Sample.run.
  cbv zeta.
  pose proof (C7_output_directory Sample.envNoDir
                (spec_concretizeExternalModules Sample.envNoDir)
                Sample.args Sample.world0
                (spec_concretize_no_mkdir Sample.envNoDir)) as H.
  destruct (main _ _ _) as [code wf]. exact (proj1 H).
Defined.

(** * Further properties of the code *)

(** ** The input stage *)

(** X2: When the input file cannot be read, or is read and does not parse,
    [main] exits with code 1 after one diagnostic, and the reading of the
    input is the only request it has made: the output directory is not looked
    at and no configuration file is parsed. *)
Theorem main_input_failure
    (env : Env) (conc : Concretizer) (args : Options) (w0 : World) :
  match env_getFile env w0 (inputFilename args) with
  | inl message =>
      main env args w0 =
        (1, put_err ("Could not open input file '" +:+ inputFilename args +:+
                     "': " +:+ message +:+ nl)
                    (log_call (SysGetFile (inputFilename args) false) w0))
  | inr buffer =>
      env_parseSourceFile env buffer = None ->
      main env args w0 =
        (1, put_err ("Error: Could not parse the input file" +:+ nl)
                    (log_call (SysGetFile (inputFilename args) true) w0))
  end.
Proof.
  unfold main, main_setup, main_parseInput, function, mbind, Body_bind, invoke,
    getFileOrSTDIN.
  destruct (env_getFile env w0 (inputFilename args)) as [message|buffer]; [done|].
  by intros ->.
Qed.

(** The two failures of the input stage, each in an environment of its own. *)
Lemma main_input_failure_witness :
  (Sample.run Sample.envNoInput Sample.args).1 = 1 /\
  calls (Sample.run Sample.envNoInput Sample.args).2 =
    [SysGetFile "design.mlir" false].
Proof.
  unfold Sample.run.
  pose proof (main_input_failure Sample.envNoInput
                (spec_concretizeExternalModules Sample.envNoInput)
                Sample.args Sample.world0) as H.
  cbn in H. by rewrite H.
Defined.

(** ** The configuration files *)

Lemma parseConfigs_step_eq env config configFile w :
  parseConfigs_step env config configFile w =
    match env_parseFromFile env w configFile with
    | Some rules =>
        (Next (config ++ rules), log_call (SysParseConfig configFile true) w)
    | None =>
        (Return 1,
         put_err ("Error: Could not parse RTL configuration file '" +:+
                  configFile +:+ "'" +:+ nl)
                 (log_call (SysParseConfig configFile false) w))
    end.
Proof.
  unfold parseConfigs_step, mbind, Body_bind, invoke, parseFromFile.
  by destruct (env_parseFromFile env w configFile).
Qed.

(** The loop of [main_parseConfigs] from any configuration loaded so far. *)
Lemma parseConfigs_loop env configs : forall acc w,
  let '(o, w') := for_each configs (parseConfigs_step env) acc w in
  files w' = files w /\ dirs w' = dirs w /\ outs w' = outs w /\
  exists pre rest,
    configs = pre ++ rest /\
    match o with
    | Next _ =>
        rest = [] /\
        calls w' = calls w ++ map (fun p => SysParseConfig p true) pre /\
        errs w' = errs w
    | Return r =>
        r = 1 /\
        exists bad post,
          rest = bad :: post /\
          calls w' = calls w ++ map (fun p => SysParseConfig p true) pre ++
                     [SysParseConfig bad false] /\
          errs w' = errs w +:+ "Error: Could not parse RTL configuration file '" +:+
                    bad +:+ "'" +:+ nl
    end.
Proof.
  induction configs as [|c configs IH]; intros acc w.
  - cbn [for_each]. unfold mret, Body_ret.
    split; [done|]. split; [done|]. split; [done|].
    exists [], []. split; [done|]. split; [done|]. split; [|done].
    cbn. by rewrite app_nil_r.
  - cbn [for_each]. unfold mbind, Body_bind. rewrite parseConfigs_step_eq.
    destruct (env_parseFromFile env w c) as [rules|]; cbn.
    + specialize (IH (acc ++ rules) (log_call (SysParseConfig c true) w)).
      destruct (for_each configs _ _ _) as [o w'].
      destruct IH as (Hf & Hd & Ho & pre & rest & -> & Hcase).
      split; [done|]. split; [done|]. split; [done|].
      exists (c :: pre), rest. split; [done|].
      destruct o as [config|r].
      * destruct Hcase as (-> & Hc & He). split; [done|]. split; [|done].
        rewrite Hc. cbn. by rewrite <- (assoc (++)).
      * destruct Hcase as (-> & bad & post & -> & Hc & He).
        split; [done|]. exists bad, post. split; [done|]. split; [|done].
        rewrite Hc. cbn. by rewrite <- (assoc (++)).
    + split; [done|]. split; [done|]. split; [done|].
      exists [], (c :: configs). split; [done|].
      split; [done|]. by exists c, configs.
Qed.

(** X3: The configuration files are parsed in the order of the command line,
    each one once, up to the first one that fails: the run does not look at
    the files after it, names the failing file in its diagnostic and gives up
    with code 1. The stage touches no file and no directory. *)
Theorem main_parseConfigs_in_order (env : Env) (args : Options) (w : World) :
  let '(o, w') := main_parseConfigs env args w in
  files w' = files w /\ dirs w' = dirs w /\ outs w' = outs w /\
  exists pre rest,
    rtlConfigs args = pre ++ rest /\
    match o with
    | Next _ =>
        rest = [] /\
        calls w' = calls w ++ map (fun p => SysParseConfig p true) pre /\
        errs w' = errs w
    | Return r =>
        r = 1 /\
        exists bad post,
          rest = bad :: post /\
          calls w' = calls w ++ map (fun p => SysParseConfig p true) pre ++
                     [SysParseConfig bad false] /\
          errs w' = errs w +:+ "Error: Could not parse RTL configuration file '" +:+
                    bad +:+ "'" +:+ nl
    end.
Proof. apply (parseConfigs_loop env (rtlConfigs args) [] w). Qed.

(** ** The requests of the flow runner *)

Lemma runLibreLaneFlow_requests
    (env : Env) (libreLanePath outputDir designName : string) (w : World) :
  let runScript := outputDir +:+ "/run_librelane.sh" in
  let '(r, w') := runLibreLaneFlow env libreLanePath outputDir designName w in
  exists new writes e o,
    calls w' = calls w ++ new /\
    errs w' = errs w +:+ e /\
    outs w' = outs w +:+ o /\
    Forall (is_write_to runScript) writes /\
    FlowTrace runScript writes new r e o /\
    (libreLanePath = EmptyString <-> new = []).
Proof.
  cbv zeta. unfold runLibreLaneFlow, function, mbind, Body_bind.
  destruct (decide (libreLanePath = EmptyString)) as [->|Hpath].
  { cbn. exists [], [], ("Error: LibreLane path not specified" +:+ nl), EmptyString.
    rewrite !app_nil_r, append_nil_r.
    split; [done|]. split; [done|]. split; [done|]. split; [done|].
    split; [constructor|]. by split. }
  rewrite (empty_false _ Hpath). cbn [when mret Body_ret].
  unfold invoke at 1. unfold ofstream_ctor.
  destruct (env_open env w (outputDir +:+ "/run_librelane.sh")) eqn:Hopen; cbn.
  2:{ exists [SysOpen (outputDir +:+ "/run_librelane.sh") false], [],
        ("Error: Cannot create LibreLane run script" +:+ nl), EmptyString.
      rewrite append_nil_r.
      split; [done|]. split; [done|]. split; [done|]. split; [done|].
      split; [constructor|]. by split. }
  match goal with
  | |- context [writeLauncherScript env ?s ?a ?b ?c0 ?w0] =>
      destruct (writeLauncherScript_spec (R := LogicalResult) env s a b c0 w0)
        as (s' & w1 & -> & [(wr & Hcalls & Hwr) Herrs Houts _ _])
  end.
  cbn in Hcalls, Herrs, Houts, Hwr |- *.
  unfold invoke, system. cbn.
  set (r1 := env_system env w1 _). clearbody r1.
  destruct (Z.eqb_spec r1 0) as [->|Hr1]; cbn.
  - set (r2 := env_system env _ _). clearbody r2.
    destruct (Z.eqb_spec r2 0) as [->|Hr2]; cbn.
    + exists (SysOpen (outputDir +:+ "/run_librelane.sh") true :: wr ++
              [SysSystem ("chmod +x " +:+ outputDir +:+ "/run_librelane.sh") 0;
               SysSystem ("bash " +:+ outputDir +:+ "/run_librelane.sh") 0]),
             wr, EmptyString,
             ("Running LibreLane flow..." +:+ nl +:+
              "Command: bash " +:+ (outputDir +:+ "/run_librelane.sh") +:+ nl +:+
              "LibreLane flow completed successfully!" +:+ nl).
      split; [rewrite Hcalls; by rewrite <- !(assoc (++))|].
      split; [by rewrite append_nil_r|].
      split; [rewrite Houts; by rewrite !append_assoc|].
      split; [done|]. split; [constructor|]. by split.
    + exists (SysOpen (outputDir +:+ "/run_librelane.sh") true :: wr ++
              [SysSystem ("chmod +x " +:+ outputDir +:+ "/run_librelane.sh") 0;
               SysSystem ("bash " +:+ outputDir +:+ "/run_librelane.sh") r2]),
             wr,
             ("Error: LibreLane flow failed with exit code " +:+
              string_of_int r2 +:+ nl),
             ("Running LibreLane flow..." +:+ nl +:+
              "Command: bash " +:+ (outputDir +:+ "/run_librelane.sh") +:+ nl).
      split; [rewrite Hcalls; by rewrite <- !(assoc (++))|].
      split; [by rewrite Herrs|].
      split; [rewrite Houts; by rewrite !append_assoc|].
      split; [done|]. split; [by constructor|]. by split.
  - exists (SysOpen (outputDir +:+ "/run_librelane.sh") true :: wr ++
            [SysSystem ("chmod +x " +:+ outputDir +:+ "/run_librelane.sh") r1]),
           wr, ("Error: Failed to make LibreLane script executable" +:+ nl),
           EmptyString.
    split; [rewrite Hcalls; by rewrite <- !(assoc (++))|].
    split; [by rewrite Herrs|]. split; [by rewrite append_nil_r|].
    split; [done|]. split; [by constructor|]. by split.
Qed.

(** X4: One call of the flow runner makes its requests in one of five shapes,
    always in this order: the launcher script is opened, written, made
    executable and only then run. So the launcher is never run when the script
    could not be created or chmod returned non-zero, the texts on the two
    streams are those of the case at hand, and the success message is printed
    exactly when the call succeeds. *)
Theorem runLibreLaneFlow_trace
    (env : Env) (libreLanePath outputDir designName : string) (w : World) :
  let runScript := outputDir +:+ "/run_librelane.sh" in
  let '(r, w') := runLibreLaneFlow env libreLanePath outputDir designName w in
  exists new writes e o,
    calls w' = calls w ++ new /\
    errs w' = errs w +:+ e /\
    outs w' = outs w +:+ o /\
    Forall (is_write_to runScript) writes /\
    FlowTrace runScript writes new r e o /\
    (libreLanePath = EmptyString <-> new = []).
Proof. apply runLibreLaneFlow_requests. Qed.

(** ** The launcher script *)

Lemma writeLauncherScript_good {R} env s path out name w c :
  (forall w0 t, env_write env w0 (os_path s) t = true) ->
  os_is_open s = true -> os_good s = true ->
  files w !! os_path s = Some c ->
  exists w',
    writeLauncherScript (R := R) env s path out name w = (Next s, w') /\
    files w' !! os_path s = Some (c +:+ launcherText path out name).
Proof.
  intros Hw Hopen Hgood Hc.
  unfold writeLauncherScript, mbind, Body_bind, invoke.
  do 10 (edestruct (ofstream_inserts_good env) as (? & -> & ?); [done..|]).
  eexists. split; [done|].
  match goal with H : files _ !! _ = Some _ |- files _ !! _ = _ => rewrite H end.
  f_equal. cbn [foldr]. unfold launcherText.
  by rewrite ?append_assoc, ?append_nil_r.
Qed.

(** X5: Whenever the launcher script can be created and written, one call of
    the flow runner with a path leaves in [<outputDir>/run_librelane.sh]
    exactly the launcher text for its three arguments, whatever the file held
    before and whatever chmod and the launcher return. *)
Theorem runLibreLaneFlow_script
    (env : Env) (libreLanePath outputDir designName : string) (w : World) :
  let runScript := outputDir +:+ "/run_librelane.sh" in
  libreLanePath <> EmptyString ->
  env_open env w runScript = true ->
  (forall w0 t, env_write env w0 runScript t = true) ->
  files (runLibreLaneFlow env libreLanePath outputDir designName w).2 !! runScript =
    Some (launcherText libreLanePath outputDir designName).
Proof.
  cbv zeta. intros Hpath Hopen Hwrite.
  unfold runLibreLaneFlow, function, mbind, Body_bind.
  rewrite (empty_false _ Hpath). cbn [when mret Body_ret].
  unfold invoke at 1. unfold ofstream_ctor. rewrite Hopen.
  cbn [negb when mret Body_ret os_is_open].
  edestruct (writeLauncherScript_good (R := LogicalResult) env) as (w1 & -> & Hfile);
    [done..| |].
  { cbn. apply lookup_insert_eq. }
  cbn in Hfile |- *. unfold invoke, system. cbn.
  destruct (env_system env w1 _ =? 0); cbn; [|done].
  destruct (env_system env _ _ =? 0); cbn; done.
Qed.

(** The launcher of the flow at [/opt/librelane], over an older script. *)
Lemma runLibreLaneFlow_script_witness :
  files (runLibreLaneFlow Sample.envChildFails "/opt/librelane" "out" "top"
           (set_files {["out/run_librelane.sh" := "echo old"]} Sample.world0)).2
    !! "out/run_librelane.sh" =
  Some (launcherText "/opt/librelane" "out" "top").
Proof.
  apply (runLibreLaneFlow_script Sample.envChildFails "/opt/librelane" "out" "top");
    [discriminate|reflexivity|reflexivity].
Defined.

(** ** What a run asks for *)

Global Instance requests_only_preorder P : PreOrder (requests_only P).
Proof.
  split.
  - intros w. exists []. by rewrite app_nil_r.
  - intros w1 w2 w3 (n1 & H1 & F1) (n2 & H2 & F2). exists (n1 ++ n2).
    split; [by rewrite H2, H1, <- (assoc (++))|by apply Forall_app].
Qed.

Lemma requests_only_same P w w' : calls w' = calls w -> requests_only P w w'.
Proof. intros H. exists []. by rewrite app_nil_r. Qed.

Lemma requests_only_one P w w' c :
  calls w' = calls w ++ [c] -> P c -> requests_only P w w'.
Proof. intros H Hc. exists [c]. split; [done|by constructor]. Qed.

Lemma writes_only_requests (P : Syscall -> Prop) path w w' :
  writes_only path w w' ->
  (forall text ok, P (SysWrite path text ok)) ->
  requests_only P w w'.
Proof.
  intros [(new & Hc & Hnew) _ _ _ _] HP. exists new. split; [done|].
  eapply Forall_impl; [exact Hnew|]. by intros c (text & ok & ->).
Qed.

Section Requests.

Context (env : Env) (conc : Concretizer) (P : Syscall -> Prop).

Lemma ofstream_ctor_requests path w :
  covers P path -> requests_only P w (ofstream_ctor env path w).2.
Proof.
  intros [Ho _]. unfold ofstream_ctor.
  destruct (env_open env w path); by eapply requests_only_one.
Qed.

Lemma ofstream_inserts_requests s texts w :
  covers P (os_path s) -> requests_only P w (ofstream_inserts env s texts w).2.
Proof.
  intros [_ Hw]. eapply writes_only_requests; [apply ofstream_inserts_writes|done].
Qed.

Lemma system_requests cmd w :
  (forall r, P (SysSystem cmd r)) -> requests_only P w (system env cmd w).2.
Proof. intros H. by eapply requests_only_one. Qed.

Lemma put_err_requests s w : requests_only P w (put_err s w).
Proof. by apply requests_only_same. Qed.

Lemma put_out_requests s w : requests_only P w (put_out s w).
Proof. by apply requests_only_same. Qed.

(** A stream constructed on a file that [P] covers, then used for
    insertions. *)
Lemma open_then_insert_requests {R B} path (k : ofstream -> Body R B) :
  covers P path ->
  (forall s, os_path s = path -> frames (requests_only P) (k s)) ->
  frames (requests_only P) (invoke (ofstream_ctor env path) ≫= k).
Proof.
  intros Hin Hk.
  apply (frames_bind_post _ (fun s => os_path s = path)); [|done].
  intros w. split.
  - unfold invoke. pose proof (ofstream_ctor_requests path w Hin) as H.
    by destruct (ofstream_ctor env path w).
  - unfold invoke, ofstream_ctor. by intros a [= <-].
Qed.

Lemma writeLauncherScript_requests_only {R} s path out name :
  covers P (os_path s) ->
  frames (requests_only P) (writeLauncherScript (R := R) env s path out name).
Proof.
  intros [_ Hin] w.
  destruct (writeLauncherScript_spec (R := R) env s path out name w)
    as (s' & w' & -> & H).
  by eapply writes_only_requests.
Qed.

Lemma runLibreLaneFlow_asks path out name w :
  covers P (out +:+ "/run_librelane.sh") ->
  (forall r, P (SysSystem ("chmod +x " +:+ (out +:+ "/run_librelane.sh")) r)) ->
  (forall r, P (SysSystem ("bash " +:+ (out +:+ "/run_librelane.sh")) r)) ->
  requests_only P w (runLibreLaneFlow env path out name w).2.
Proof.
  intros Hin Hchmod Hbash. unfold runLibreLaneFlow.
  apply (frames_function (requests_only P)).
  apply frames_bind; [typeclasses eauto| |intros _].
  { frames_tac; auto using put_err_requests. }
  cbv zeta. apply open_then_insert_requests; [done|]. intros s Hs.
  apply frames_bind; [typeclasses eauto| |intros _].
  { frames_tac; auto using put_err_requests. }
  apply frames_bind; [typeclasses eauto| |intros ?].
  - apply writeLauncherScript_requests_only. by rewrite Hs.
  - frames_tac; auto using put_err_requests, put_out_requests, system_requests.
Qed.

(** The loop over the modules keeps the stream on its file. *)
Lemma writeModuleStubs_requests modules : forall s,
  covers P (os_path s) ->
  frames (requests_only P) (for_each modules (writeModuleStub env) s).
Proof.
  induction modules as [|op modules IH]; intros s Hin; cbn [for_each].
  - frames_tac.
  - apply (frames_bind_post _ (fun s' => os_path s' = os_path s)).
    + intros w. unfold writeModuleStub, mbind, Body_bind, invoke.
      repeat lazymatch goal with
      | |- context [ofstream_inserts env ?s0 ?l ?w0] =>
          let E := fresh "E" in
          destruct (ofstream_inserts env s0 l w0) as [? ?] eqn:E;
          apply ofstream_inserts_spec in E as (? & ? & _)
      end.
      cbn. split; [|intros a [= <-]; congruence].
      repeat match goal with
      | H : os_path _ = os_path _ |- _ => rewrite H in *; clear H
      end.
      destruct Hin as [_ Hin].
      repeat (etrans; [eapply writes_only_requests; [eassumption|done]|]).
      reflexivity.
    + intros s' Hs'. apply IH. by rewrite Hs'.
Qed.

Lemma main_writeDesign_requests args module :
  covers P (designFile args) ->
  frames (requests_only P) (main_writeDesign env args module).
Proof.
  intros Hin. unfold main_writeDesign. cbv zeta. fold (designFile args).
  apply open_then_insert_requests; [done|]. intros s Hs.
  apply frames_bind; [typeclasses eauto| |intros _].
  { frames_tac; auto using put_err_requests. }
  apply frames_bind; [typeclasses eauto| |intros ?; frames_tac].
  apply writeModuleStubs_requests. by rewrite Hs.
Qed.

Lemma main_writeYosys_requests args :
  covers P (outputDir args +:+ "/synthesize.tcl") ->
  frames (requests_only P) (main_writeYosys env args).
Proof.
  intros Hin. unfold main_writeYosys. cbv zeta.
  apply open_then_insert_requests; [done|]. intros s Hs.
  destruct (os_is_open s); frames_tac.
  intros w. apply ofstream_inserts_requests. by rewrite Hs.
Qed.

Lemma main_writeConfig_requests args :
  covers P (outputDir args +:+ "/config.tcl") ->
  frames (requests_only P) (main_writeConfig env args).
Proof.
  intros Hin. unfold main_writeConfig. cbv zeta.
  apply open_then_insert_requests; [done|]. intros s Hs.
  destruct (os_is_open s); frames_tac.
  intros w. apply ofstream_inserts_requests. by rewrite Hs.
Qed.

Lemma main_finish_requests args designFile yosysFile configFile :
  covers P (outputDir args +:+ "/run_librelane.sh") ->
  (forall r, P (SysSystem ("chmod +x " +:+ (outputDir args +:+ "/run_librelane.sh")) r)) ->
  (forall r, P (SysSystem ("bash " +:+ (outputDir args +:+ "/run_librelane.sh")) r)) ->
  frames (requests_only P) (main_finish env args designFile yosysFile configFile).
Proof.
  intros Hin Hchmod Hbash. unfold main_finish.
  frames_tac; auto using put_err_requests, put_out_requests.
  intros w. by apply runLibreLaneFlow_asks.
Qed.

End Requests.

Lemma emission_request_covers args path :
  path ∈ artifacts args -> covers (emission_request args) path.
Proof. intros H. by split. Qed.

(** X6: Every request one call of the flow runner makes is a request to open
    [<outputDir>/run_librelane.sh], to insert into it, or to run chmod or
    bash on it, whatever its arguments are and whatever the environment
    answers: the runner itself opens and writes no other file and asks for
    no directory.  (What the two child processes do to the file system is
    not the runner's doing and is not modelled.) *)
Theorem runLibreLaneFlow_own_requests
    (env : Env) (libreLanePath outputDir designName : string) (w : World) :
  requests_only (launcher_request outputDir) w
    (runLibreLaneFlow env libreLanePath outputDir designName w).2.
Proof.
  apply runLibreLaneFlow_asks; [by split|intros r; by left|intros r; by right].
Qed.

(** X7: Once the resolution stage is over, every request of a run is a
    request to open the design file, synthesize.tcl, config.tcl or
    run_librelane.sh, to insert into one of them, or to run chmod or bash on
    run_librelane.sh, whatever the exit code is: [main] itself opens and
    writes no other file, reads none and asks for no directory.  (What the
    child processes of the flow do to the file system is not modelled.) *)
Theorem main_emission_requests
    (env : Env) (conc : Concretizer) (args : Options) (module : ModuleOp)
    (w0 w1 : World) :
  reaches_emission env conc args module w0 w1 ->
  requests_only (emission_request args) w1 (main env args w0).2.
Proof.
  intros (config & w & info & Hsetup & Hconc).
  unfold main, function, mbind, Body_bind. rewrite Hsetup.
  unfold main_export. unfold mbind at 1, Body_bind at 1. rewrite Hconc.
  assert (H : frames (requests_only (emission_request args))
    (main_writeDesign env args module ≫= fun designFile =>
     main_writeYosys env args ≫= fun yosysFile =>
     main_writeConfig env args ≫= fun configFile =>
     main_finish env args designFile yosysFile configFile ≫= fun _ => mret 0)).
  { apply frames_bind; [typeclasses eauto| |intros designFile].
    { apply main_writeDesign_requests, emission_request_covers.
      unfold artifacts. set_solver. }
    apply frames_bind; [typeclasses eauto| |intros yosysFile].
    { apply main_writeYosys_requests, emission_request_covers.
      unfold artifacts. set_solver. }
    apply frames_bind; [typeclasses eauto| |intros configFile].
    { apply main_writeConfig_requests, emission_request_covers.
      unfold artifacts. set_solver. }
    apply frames_bind; [typeclasses eauto| |intros _; frames_tac].
    apply main_finish_requests.
    - apply emission_request_covers. unfold artifacts. set_solver.
    - intros r. by left.
    - intros r. by right. }
  specialize (H w1). unfold mbind, Body_bind in H |- *.
  by destruct (main_writeDesign env args module w1) as [[d|r] w2];
    [destruct (main_writeYosys env args w2) as [[y|r] w3];
     [destruct (main_writeConfig env args w3) as [[c|r] w4];
      [destruct (main_finish env args d y c w4) as [[[]|r] w5]|]|]|].
Qed.

(** The requests after the resolution stage of a run whose flow fails. *)
Lemma main_emission_requests_witness :
  exists w1,
    reaches_emission Sample.envChildFails
      (spec_concretizeExternalModules Sample.envChildFails)
      Sample.argsFlow Sample.design Sample.world0 w1 /\
    requests_only (emission_request Sample.argsFlow) w1
      (Sample.run Sample.envChildFails Sample.argsFlow).2.
Proof.
  unfold Sample.run. eexists. split.
  - eexists _, _, _. split; reflexivity.
  - apply (main_emission_requests Sample.envChildFails
             (spec_concretizeExternalModules Sample.envChildFails)
             Sample.argsFlow Sample.design Sample.world0).
    eexists _, _, _. split; reflexivity.
Defined.

(** ** Child processes *)

Global Instance no_child_preorder : PreOrder no_child.
Proof. split; [done|]. intros w1 w2 w3. unfold no_child. congruence. Qed.

Lemma no_child_calls w w' c :
  calls w' = calls w ++ [c] -> is_system c = false -> no_child w w'.
Proof.
  intros Hc Hs. unfold no_child, children. rewrite Hc, filter_app.
  rewrite (filter_cons_False _ c); [by rewrite app_nil_r|].
  rewrite Hs. exact id.
Qed.

Lemma writes_only_no_child path w w' : writes_only path w w' -> no_child w w'.
Proof.
  intros [(new & Hc & Hnew) _ _ _ _]. unfold no_child, children.
  rewrite Hc, filter_app, (filter_writes _ _ Hnew), app_nil_r; [done|].
  intros; cbn; tauto.
Qed.

Section Children.

Context (env : Env) (conc : Concretizer).

Lemma ofstream_ctor_no_child path w : no_child w (ofstream_ctor env path w).2.
Proof.
  unfold ofstream_ctor.
  destruct (env_open env w path); by eapply no_child_calls.
Qed.

Lemma ofstream_insert_no_child s text w :
  no_child w (ofstream_insert env s text w).2.
Proof.
  destruct (ofstream_insert env s text w) as [s' w'] eqn:E.
  apply ofstream_insert_spec in E as [H _]. by eapply writes_only_no_child.
Qed.

Lemma ofstream_inserts_no_child s texts w :
  no_child w (ofstream_inserts env s texts w).2.
Proof. eapply writes_only_no_child, ofstream_inserts_writes. Qed.

Lemma put_err_no_child s w : no_child w (put_err s w).
Proof. done. Qed.

Lemma put_out_no_child s w : no_child w (put_out s w).
Proof. done. Qed.

Lemma main_setup_no_child args : frames no_child (main_setup env args).
Proof.
  unfold main_setup, main_parseInput, main_createOutputDirectory,
    main_parseConfigs.
  frames_tac; try done.
  - intros w. by eapply no_child_calls.
  - intros w. unfold create_directories.
    destruct (bool_decide _); [by eapply no_child_calls|].
    destruct (env_mkdir env w _); by eapply no_child_calls.
  - intros w. unfold parseFromFile.
    destruct (env_parseFromFile env w _); by eapply no_child_calls.
Qed.

Lemma concretize_no_child ref rule out w :
  no_child w (concretize env ref rule out w).2.
Proof.
  unfold concretize. apply (frames_function no_child).
  frames_tac; auto using ofstream_ctor_no_child, ofstream_insert_no_child.
Qed.

(** The modelled resolution starts no child process. *)
Lemma spec_concretize_no_child info w :
  no_child w (spec_concretizeExternalModules env info w).2.
Proof.
  unfold spec_concretizeExternalModules. apply (frames_function no_child).
  unfold resolveReference. frames_tac; try done.
  intros w'. apply concretize_no_child.
Qed.

End Children.

Lemma children_of_flow_none args w w' :
  no_child w w' -> children_of_flow args w w'.
Proof.
  intros H. exists []. rewrite app_nil_r. split; [done|]. split; [constructor|done].
Qed.

Lemma children_of_flow_after args w w1 w2 :
  no_child w w1 -> children_of_flow args w1 w2 -> children_of_flow args w w2.
Proof. intros H (cs & Hcs & Hrest). exists cs. by rewrite Hcs, H. Qed.

Lemma children_of_flow_bind args {R A B} (m : Body R A) (k : A -> Body R B) :
  frames no_child m ->
  (forall a w, children_of_flow args w (k a w).2) ->
  forall w, children_of_flow args w ((m ≫= k) w).2.
Proof.
  intros Hm Hk w. unfold mbind, Body_bind. specialize (Hm w).
  destruct (m w) as [[a|r] w1]; cbn in *.
  - eapply children_of_flow_after; [exact Hm|apply Hk].
  - by apply children_of_flow_none.
Qed.

Lemma runLibreLaneFlow_children env path out name w :
  exists cs,
    children (runLibreLaneFlow env path out name w).2 = children w ++ cs /\
    FlowChildren (out +:+ "/run_librelane.sh") cs /\
    (path = EmptyString -> cs = []).
Proof.
  pose proof (runLibreLaneFlow_requests env path out name w) as H. cbv zeta in H.
  destruct (runLibreLaneFlow env path out name w) as [r w'].
  destruct H as (new & writes & e & o & Hc & _ & _ & Hw & Htrace & Hpath).
  assert (Hfilter : forall tail,
            filter is_system (SysOpen (out +:+ "/run_librelane.sh") true ::
                              writes ++ tail) = filter is_system tail).
  { intros tail. rewrite filter_cons_False by (cbn; tauto).
    rewrite filter_app, (filter_writes _ _ Hw); [done|]. intros; cbn; tauto. }
  cbn [snd]. unfold children. rewrite Hc, filter_app.
  destruct Htrace; eexists; (split; [reflexivity|]); rewrite ?Hfilter; cbn.
  - split; [constructor|done].
  - split; [constructor|done].
  - split; [by constructor|]. intros Hp. apply Hpath in Hp. discriminate.
  - split; [constructor|]. intros Hp. apply Hpath in Hp. discriminate.
  - split; [constructor|]. intros Hp. apply Hpath in Hp. discriminate.
Qed.

Lemma main_finish_children env args designFile yosysFile configFile w :
  children_of_flow args w
    (main_finish env args designFile yosysFile configFile w).2.
Proof.
  unfold main_finish.
  do 5 (apply children_of_flow_bind; [frames_tac; done|intros _; clear w; intros w]).
  rename w into w5.
  destruct (runLibreLane args) eqn:Hflag; cbn [when];
    [|by apply children_of_flow_none].
  unfold mbind, Body_bind, invoke.
  destruct (runLibreLaneFlow_children env (libreLanePath args) (outputDir args)
              (designName args) w5) as (cs & Hcs & Hshape & Hnone).
  destruct (runLibreLaneFlow env _ _ _ w5) as [r w6]. cbn [snd] in Hcs.
  exists cs. split; [by destruct r|]. split; [done|].
  intros [?|?]; [congruence|by apply Hnone].
Qed.

(** X8: Whatever the environment answers, one run of [main] starts at most the
    two child processes of the flow runner, in this order: chmod on the
    launcher script of the output directory and, if chmod returned 0, bash on
    it. It starts none when the flow is not requested or no flow path is
    given. (The resolution stage, which this file only declares, is taken to
    start none.) *)
Theorem main_children
    (env : Env) (conc : Concretizer) (args : Options) (w0 : World) :
  (forall info w, no_child w (concretizeExternalModules info w).2) ->
  children_of_flow args w0 (main env args w0).2.
Proof.
  intros Hconc.
  assert (H : children_of_flow args w0
                (('(module, config) ← main_setup env args;
                  main_export env args module config) w0).2).
  { apply children_of_flow_bind; [apply main_setup_no_child|].
    intros [module config] w. unfold main_export.
    apply children_of_flow_bind.
    { unfold main_concretize. frames_tac; auto using put_err_no_child. }
    intros info w1. apply children_of_flow_bind.
    { unfold main_writeDesign, writeModuleStub.
      frames_tac;
        auto using put_err_no_child, ofstream_ctor_no_child,
                   ofstream_inserts_no_child. }
    intros designFile w2. apply children_of_flow_bind.
    { unfold main_writeYosys.
      frames_tac; auto using ofstream_ctor_no_child, ofstream_inserts_no_child. }
    intros yosysFile w3. apply children_of_flow_bind.
    { unfold main_writeConfig.
      frames_tac; auto using ofstream_ctor_no_child, ofstream_inserts_no_child. }
    intros configFile w4. unfold mbind, Body_bind.
    pose proof (main_finish_children env args designFile yosysFile configFile w4) as H.
    by destruct (main_finish env args designFile yosysFile configFile w4)
      as [[[]|r] w5]. }
  unfold main, function.
  match goal with
  | |- context [match ?run with _ => _ end] => by destruct run as [[z|z] wf]
  end.
Qed.

(** A run with the flow whose launcher fails: chmod, then the launcher. *)
Lemma main_children_witness :
  children_of_flow Sample.argsFlow Sample.world0
    (Sample.run Sample.envChildFails Sample.argsFlow).2.
Proof.
  unfold Sample.run.
  apply (main_children Sample.envChildFails
           (spec_concretizeExternalModules Sample.envChildFails)
           Sample.argsFlow Sample.world0).
  apply spec_concretize_no_child.
Defined.

(** ** The three files of a run *)

Lemma function_snd {R} (b : Body R R) w : (function b w).2 = (b w).2.
Proof. unfold function. by destruct (b w) as [[r|r] w']. Qed.

Lemma yosys_ne_config out : out +:+ "/synthesize.tcl" <> out +:+ "/config.tcl".
Proof. intros H. apply (inj (String.app out)) in H. discriminate. Qed.

Lemma yosys_ne_launcher out :
  out +:+ "/synthesize.tcl" <> out +:+ "/run_librelane.sh".
Proof. intros H. apply (inj (String.app out)) in H. discriminate. Qed.

Lemma config_ne_launcher out :
  out +:+ "/config.tcl" <> out +:+ "/run_librelane.sh".
Proof. intros H. apply (inj (String.app out)) in H. discriminate. Qed.

Section Scripts.

Context (env : Env).

Lemma main_writeYosys_ok args w :
  accepts env (outputDir args +:+ "/synthesize.tcl") ->
  exists w',
    main_writeYosys env args w = (Next (outputDir args +:+ "/synthesize.tcl"), w') /\
    files w' !! (outputDir args +:+ "/synthesize.tcl") =
      Some (createASICSynthesisScript (designName args) (pdk args) (library args)
                                      (outputDir args)).
Proof.
  intros [Hopen Hwrite].
  unfold main_writeYosys, mbind, Body_bind, invoke, ofstream_ctor.
  cbv zeta. rewrite Hopen. cbn [os_is_open].
  edestruct (ofstream_inserts_good env) as (w' & -> & H'); [done..| |].
  - cbn. apply lookup_insert_eq.
  - exists w'. split; [done|]. cbn in H'. rewrite H'. by rewrite append_nil_r.
Qed.

Lemma main_writeConfig_ok args w :
  accepts env (outputDir args +:+ "/config.tcl") ->
  exists w',
    main_writeConfig env args w = (Next (outputDir args +:+ "/config.tcl"), w') /\
    files w' !! (outputDir args +:+ "/config.tcl") =
      Some (createLibreLaneConfig (designName args) (pdk args) (library args)
                                  (outputDir args)).
Proof.
  intros [Hopen Hwrite].
  unfold main_writeConfig, mbind, Body_bind, invoke, ofstream_ctor.
  cbv zeta. rewrite Hopen. cbn [os_is_open].
  edestruct (ofstream_inserts_good env) as (w' & -> & H'); [done..| |].
  - cbn. apply lookup_insert_eq.
  - exists w'. split; [done|]. cbn in H'. rewrite H'. by rewrite append_nil_r.
Qed.

End Scripts.

(** X9: When the run gets past the resolution stage and the environment lets
    it create and write the design file, synthesize.tcl and config.tcl, the
    three files hold at the end of the run the stubs of the modules, the text
    of [createASICSynthesisScript] and the text of [createLibreLaneConfig] for
    the options of the run, whatever they held before, and whether the flow
    then runs, succeeds or fails. *)
Theorem main_artifacts_on_disk
    (env : Env) (conc : Concretizer) (args : Options) (module : ModuleOp)
    (w0 w1 : World) :
  reaches_emission env conc args module w0 w1 ->
  accepts env (designFile args) ->
  accepts env (outputDir args +:+ "/synthesize.tcl") ->
  accepts env (outputDir args +:+ "/config.tcl") ->
  let wf := (main env args w0).2 in
  files wf !! designFile args = Some (designText (hwModules module)) /\
  files wf !! (outputDir args +:+ "/synthesize.tcl") =
    Some (createASICSynthesisScript (designName args) (pdk args) (library args)
                                    (outputDir args)) /\
  files wf !! (outputDir args +:+ "/config.tcl") =
    Some (createLibreLaneConfig (designName args) (pdk args) (library args)
                                (outputDir args)).
Proof.
  intros (config & w & info & Hsetup & Hconc) [Hdo Hdw] Hyosys Hconfig. cbv zeta.
  destruct (main_writeDesign_ok env args module w1 Hdw (Hdo w1))
    as (w2 & Ed & Hdesign).
  destruct (main_writeYosys_ok env args w2 Hyosys) as (w3 & Ey & Hscript).
  destruct (main_writeConfig_ok env args w3 Hconfig) as (w4 & Ec & Hcfg).
  pose proof (main_writeYosys_keeps env (designFile args) args
                (design_file_ne_yosys _ _) w2) as Hk1.
  pose proof (main_writeConfig_keeps env (designFile args) args
                (design_file_ne_config _ _) w3) as Hk2.
  pose proof (main_writeConfig_keeps env (outputDir args +:+ "/synthesize.tcl") args
                (yosys_ne_config _) w3) as Hk3.
  pose proof (main_finish_keeps env (designFile args) args (designFile args)
                (outputDir args +:+ "/synthesize.tcl")
                (outputDir args +:+ "/config.tcl")
                (design_file_ne_launcher _ _) w4) as Hk4.
  pose proof (main_finish_keeps env (outputDir args +:+ "/synthesize.tcl") args
                (designFile args) (outputDir args +:+ "/synthesize.tcl")
                (outputDir args +:+ "/config.tcl")
                (yosys_ne_launcher _) w4) as Hk5.
  pose proof (main_finish_keeps env (outputDir args +:+ "/config.tcl") args
                (designFile args) (outputDir args +:+ "/synthesize.tcl")
                (outputDir args +:+ "/config.tcl")
                (config_ne_launcher _) w4) as Hk6.
  rewrite Ey in Hk1. rewrite Ec in Hk2, Hk3. unfold keeps_file in *.
  assert (Hwf : (main env args w0).2 =
                (main_finish env args (designFile args)
                   (outputDir args +:+ "/synthesize.tcl")
                   (outputDir args +:+ "/config.tcl") w4).2).
  { unfold main. rewrite function_snd. unfold main_export, mbind, Body_bind.
    rewrite Hsetup, Hconc, Ed, Ey, Ec.
    by destruct (main_finish env args _ _ _ w4) as [[[]|r] w5]. }
  rewrite Hwf. cbn [snd] in *. split; [|split]; congruence.
Qed.

(** The three files after a run whose flow fails with exit code 1. *)
Lemma main_artifacts_on_disk_witness :
  (Sample.run Sample.envChildFails Sample.argsFlow).1 = 1 /\
  let wf := (Sample.run Sample.envChildFails Sample.argsFlow).2 in
  files wf !! "out/dynamatic_design.v" = Some (designText ["top"; "kernel"]) /\
  files wf !! "out/synthesize.tcl" =
    Some (createASICSynthesisScript "dynamatic_design" "sky130" "sky130_fd_sc_hd"
                                    "out") /\
  files wf !! "out/config.tcl" =
    Some (createLibreLaneConfig "dynamatic_design" "sky130" "sky130_fd_sc_hd" "out").
Proof.
  split; [vm_compute; reflexivity|].
  unfold Sample.run.
  eapply (main_artifacts_on_disk Sample.envChildFails
           (spec_concretizeExternalModules Sample.envChildFails)
           Sample.argsFlow Sample.design Sample.world0).
  - eexists _, _, _. split; reflexivity.
  - by split.
  - by split.
  - by split.
Defined.

(** ** The exit code after the emission *)

Global Instance silent_preorder : PreOrder silent.
Proof.
  split; [done|]. intros w1 w2 w3 [He1 Ho1] [He2 Ho2]. split; congruence.
Qed.

Lemma writes_only_silent path w w' : writes_only path w w' -> silent w w'.
Proof. by intros [_ He Ho _ _]. Qed.

Lemma put_out_put_out a b w : put_out b (put_out a w) = put_out (a +:+ b) w.
Proof. unfold put_out. cbn. by rewrite append_assoc. Qed.

Section AfterEmission.

Context (env : Env).

Lemma ofstream_ctor_silent path w : silent w (ofstream_ctor env path w).2.
Proof. unfold ofstream_ctor. by destruct (env_open env w path). Qed.

Lemma writeModuleStub_next s op w :
  exists s' w',
    writeModuleStub env s op w = (Next s', w') /\
    os_path s' = os_path s /\ writes_only (os_path s) w w'.
Proof.
  unfold writeModuleStub, mbind, Body_bind, invoke.
  repeat lazymatch goal with
  | |- context [ofstream_inserts env ?s0 ?l ?w0] =>
      let E := fresh "E" in
      destruct (ofstream_inserts env s0 l w0) as [? ?] eqn:E;
      apply ofstream_inserts_spec in E as (? & ? & _)
  end.
  eexists _, _. split; [done|].
  repeat match goal with
  | H : os_path _ = os_path _ |- _ => rewrite H in *; clear H
  end.
  split; [done|].
  repeat (eapply writes_only_trans; [eassumption|]).
  apply writes_only_refl.
Qed.

Lemma writeModuleStubs_next modules : forall s w,
  exists s' w',
    for_each modules (writeModuleStub env) s w = (Next s', w') /\
    writes_only (os_path s) w w'.
Proof.
  induction modules as [|op modules IH]; intros s w; cbn [for_each].
  - exists s, w. split; [done|apply writes_only_refl].
  - unfold mbind, Body_bind.
    destruct (writeModuleStub_next s op w) as (s1 & w1 & -> & Hp & H1).
    destruct (IH s1 w1) as (s2 & w2 & -> & H2). rewrite Hp in H2.
    exists s2, w2. split; [done|]. by eapply writes_only_trans.
Qed.

(** Once the design file is created the emission of the design goes
    through, whatever the insertions do, and prints nothing. *)
Lemma main_writeDesign_next args module w :
  env_open env w (designFile args) = true ->
  exists w',
    main_writeDesign env args module w = (Next (designFile args), w') /\
    silent w w'.
Proof.
  intros Hopen.
  unfold main_writeDesign, mbind, Body_bind, invoke, ofstream_ctor.
  fold (designFile args). rewrite Hopen. cbn [negb when mret Body_ret os_is_open].
  match goal with
  | |- context [for_each ?l ?b ?s ?w0] =>
      destruct (writeModuleStubs_next l s w0) as (s' & w' & -> & H)
  end.
  exists w'. split; [done|]. by apply writes_only_silent in H.
Qed.

(** The two scripts never stop the run and print nothing, whether they can
    be created or not. *)
Lemma main_writeYosys_next args w :
  exists w',
    main_writeYosys env args w = (Next (outputDir args +:+ "/synthesize.tcl"), w') /\
    silent w w'.
Proof.
  unfold main_writeYosys, mbind, Body_bind, invoke, ofstream_ctor. cbv zeta.
  destruct (env_open env w _); cbn [os_is_open mret Body_ret].
  - match goal with
    | |- context [ofstream_inserts env ?s0 ?l ?w0] =>
        destruct (ofstream_inserts env s0 l w0) as [s' w'] eqn:E;
        apply ofstream_inserts_spec in E as (H & _)
    end.
    exists w'. split; [done|]. by apply writes_only_silent in H.
  - by eexists.
Qed.

Lemma main_writeConfig_next args w :
  exists w',
    main_writeConfig env args w = (Next (outputDir args +:+ "/config.tcl"), w') /\
    silent w w'.
Proof.
  unfold main_writeConfig, mbind, Body_bind, invoke, ofstream_ctor. cbv zeta.
  destruct (env_open env w _); cbn [os_is_open mret Body_ret].
  - match goal with
    | |- context [ofstream_inserts env ?s0 ?l ?w0] =>
        destruct (ofstream_inserts env s0 l w0) as [s' w'] eqn:E;
        apply ofstream_inserts_spec in E as (H & _)
    end.
    exists w'. split; [done|]. by apply writes_only_silent in H.
  - by eexists.
Qed.

End AfterEmission.

Lemma emitted_exists env args module w1 :
  env_open env w1 (designFile args) = true ->
  exists w4, emitted env args module w1 w4 /\ silent w1 w4.
Proof.
  intros Hopen.
  destruct (main_writeDesign_next env args module w1 Hopen) as (w2 & Ed & H2).
  destruct (main_writeYosys_next env args w2) as (w3 & Ey & H3).
  destruct (main_writeConfig_next env args w3) as (w4 & Ec & H4).
  exists w4. split; [by exists w2, w3|by etrans; [|etrans]].
Qed.

Lemma main_after_emitted
    (env : Env) (conc : Concretizer) (args : Options) (module : ModuleOp)
    (w0 w1 w4 : World) :
  reaches_emission env conc args module w0 w1 ->
  emitted env args module w1 w4 ->
  main env args w0 =
    if runLibreLane args then
      let '(r, w6) := runLibreLaneFlow env (libreLanePath args) (outputDir args)
                        (designName args) (put_out (reportText args) w4) in
      match r with
      | success => (0, w6)
      | failure => (1, put_err ("Error: LibreLane flow failed" +:+ nl) w6)
      end
    else (0, put_out (reportText args) w4).
Proof.
  intros (config & w & info & Hsetup & Hconc) (w2 & w3 & Ed & Ey & Ec).
  unfold main, function, main_export, mbind, Body_bind.
  rewrite Hsetup, Hconc, Ed, Ey, Ec.
  unfold main_finish, mbind, Body_bind, outs_print, effect.
  rewrite !put_out_put_out. fold (designFile args).
  unfold reportText. rewrite !append_assoc.
  destruct (runLibreLane args); cbn [when mret Body_ret]; [|done].
  unfold invoke, mbind, Body_bind.
  destruct (runLibreLaneFlow env _ _ _ _) as [[] w6]; done.
Qed.

Lemma main_after_design
    (env : Env) (conc : Concretizer) (args : Options) (module : ModuleOp)
    (w0 w1 : World) :
  reaches_emission env conc args module w0 w1 ->
  env_open env w1 (designFile args) = true ->
  exists w4,
    silent w1 w4 /\
    main env args w0 =
      if runLibreLane args then
        let '(r, w6) := runLibreLaneFlow env (libreLanePath args) (outputDir args)
                          (designName args) (put_out (reportText args) w4) in
        match r with
        | success => (0, w6)
        | failure => (1, put_err ("Error: LibreLane flow failed" +:+ nl) w6)
        end
      else (0, put_out (reportText args) w4).
Proof.
  intros Hreach Hopen.
  destruct (emitted_exists env args module w1 Hopen) as (w4 & Hem & Hsilent).
  exists w4. split; [done|]. by eapply main_after_emitted.
Qed.

(** X10: Once the run is past the resolution stage and the design file is
    created, nothing can stop it but the flow: the rest of the emission prints
    nothing, whether the insertions and the two scripts succeed or not, the
    closing report names the output directory and the three files, and then
    the exit code is 0 without the flow, 0 when the flow runner (called with
    the flow path, the output directory and the design name of the options)
    succeeds, and 1 after one more diagnostic when it fails. *)
Theorem main_exit_code_after_design
    (env : Env) (conc : Concretizer) (args : Options) (module : ModuleOp)
    (w0 w1 : World) :
  reaches_emission env conc args module w0 w1 ->
  env_open env w1 (designFile args) = true ->
  exists w4,
    silent w1 w4 /\
    main env args w0 =
      if runLibreLane args then
        let '(r, w6) := runLibreLaneFlow env (libreLanePath args) (outputDir args)
                          (designName args) (put_out (reportText args) w4) in
        match r with
        | success => (0, w6)
        | failure => (1, put_err ("Error: LibreLane flow failed" +:+ nl) w6)
        end
      else (0, put_out (reportText args) w4).
Proof. apply main_after_design. Qed.

(** The two ends of a run past the design file: without the flow, and with
    a flow whose launcher fails. *)
Lemma main_exit_code_after_design_witness :
  (Sample.run Sample.envOk Sample.args).1 = 0 /\
  (Sample.run Sample.envChildFails Sample.argsFlow).1 = 1.
Proof.
  unfold Sample.run. split.
  - edestruct (main_exit_code_after_design Sample.envOk
                 (spec_concretizeExternalModules Sample.envOk)
                 Sample.args Sample.design Sample.world0) as (w4 & _ & ->).
    + eexists _, _, _. split; reflexivity.
    + reflexivity.
    + reflexivity.
  - edestruct (main_exit_code_after_design Sample.envChildFails
                 (spec_concretizeExternalModules Sample.envChildFails)
                 Sample.argsFlow Sample.design Sample.world0) as (w4 & _ & ->).
    + eexists _, _, _. split; reflexivity.
    + reflexivity.
    + vm_compute. reflexivity.
Defined.

(** ** The output directory cannot be created *)

(** X11: When the input is parsed and the output directory cannot be provided,
    [main] exits with code 1 after a diagnostic that names the directory and
    carries the message of the failure, and does nothing else: no
    configuration file is parsed and no file is opened. *)
Theorem main_directory_failure
    (env : Env) (conc : Concretizer) (args : Options) (module : ModuleOp)
    (message : string) (w0 w1 w2 : World) :
  main_parseInput env args w0 = (Next module, w1) ->
  create_directories env (outputDir args) w1 = (Some message, w2) ->
  main env args w0 =
    (1, put_err ("Error: Could not create output directory '" +:+ outputDir args +:+
                 "': " +:+ message +:+ nl) w2).
Proof.
  intros Hinput Hdir.
  unfold main, function, main_setup, main_createOutputDirectory, mbind, Body_bind,
    invoke.
  by rewrite Hinput, Hdir.
Qed.

(** A run whose output directory is refused. *)
Lemma main_directory_failure_witness :
  Sample.run Sample.envNoDir Sample.args =
    (1, put_err ("Error: Could not create output directory 'out': " +:+
                 "Permission denied" +:+ nl)
          (log_call (SysCreateDirectories "out" false)
             (log_call (SysGetFile "design.mlir" true) Sample.world0))).
Proof.
  unfold Sample.run.
  apply (main_directory_failure Sample.envNoDir
           (spec_concretizeExternalModules Sample.envNoDir)
           Sample.args Sample.design "Permission denied" Sample.world0
           (log_call (SysGetFile "design.mlir" true) Sample.world0));
    reflexivity.
Defined.

(** ** The synthesis script and the design file *)

(** X12: The synthesis script [main] writes reads the design file [main]
    writes: for all options, its [read_verilog] command names the path of the
    design file, and its [write_liberty] command a file of the output
    directory named after the design. *)
Theorem synthesis_script_reads_design_file (args : Options) :
  let script :=
    createASICSynthesisScript (designName args) (pdk args) (library args)
                              (outputDir args) in
  contains ("read_verilog " +:+ designFile args +:+ nl) script /\
  contains ("write_liberty " +:+ outputDir args +:+ "/" +:+ designName args +:+
            ".lib" +:+ nl) script.
Proof.
  cbv zeta. unfold designFile.
  split; contains_tac (designName args) (pdk args) (library args) (outputDir args).
Qed.

(** ** The keys of the map *)

Lemma testbit_two n : Z.testbit 2 n = bool_decide (n = 1).
Proof.
  destruct n as [|[p|p|]|p]; try done.
Qed.

(** X13: Whatever [std::hash<std::string>] is, the hash of a key is a 32-bit
    value, and the two keys of one name differ in exactly bit 1 of their
    hashes: a name with the flag set never collides with the same name with
    the flag cleared. *)
Theorem getHashValue_flag_bit (hash : string -> Z) (s : string) :
  (forall b, 0 <= DenseMapInfo.getHashValue hash (s, b) < 2 ^ 32) /\
  Z.lxor (DenseMapInfo.getHashValue hash (s, true))
         (DenseMapInfo.getHashValue hash (s, false)) = 2 /\
  DenseMapInfo.getHashValue hash (s, true) <>
    DenseMapInfo.getHashValue hash (s, false).
Proof.
  assert (Hx : Z.lxor (DenseMapInfo.getHashValue hash (s, true))
                      (DenseMapInfo.getHashValue hash (s, false)) = 2).
  { unfold DenseMapInfo.getHashValue. cbn [fst snd].
    change (Z.shiftl 1 1) with 2. change (Z.shiftl 0 1) with 0.
    rewrite Z.lxor_0_r. apply Z.bits_inj'. intros n Hn.
    rewrite Z.lxor_spec, testbit_two.
    destruct (Z.lt_ge_cases n 32) as [Hlt|Hge].
    - rewrite !Z.mod_pow2_bits_low by lia.
      rewrite Z.lxor_spec, testbit_two. by destruct (Z.testbit (hash s) n), (bool_decide _).
    - rewrite !Z.mod_pow2_bits_high by lia.
      rewrite bool_decide_eq_false_2 by lia. done. }
  split; [|split; [exact Hx|]].
  - intros b. unfold DenseMapInfo.getHashValue. apply Z.mod_pos_bound. lia.
  - intros Heq. rewrite Heq, Z.lxor_nilpotent in Hx. discriminate.
Qed.

(** X14: The two sentinel keys of the map differ from each other, and a key is
    taken for a sentinel exactly when its flag is cleared and its name is one
    of the two reserved names: no key with the flag set ever is, and the names
    EMPTY_KEY and TOMBSTONE_KEY cannot be used with the flag cleared. *)
Theorem sentinel_keys (s : string) (b : bool) :
  DenseMapInfo.isEqual DenseMapInfo.getEmptyKey DenseMapInfo.getTombstoneKey = false /\
  (DenseMapInfo.isEqual (s, b) DenseMapInfo.getEmptyKey ||
   DenseMapInfo.isEqual (s, b) DenseMapInfo.getTombstoneKey = true <->
   b = false /\ (s = "EMPTY_KEY" \/ s = "TOMBSTONE_KEY")).
Proof.
  split; [done|].
  unfold DenseMapInfo.isEqual, DenseMapInfo.getEmptyKey,
    DenseMapInfo.getTombstoneKey, DenseMapInfo.EMPTY_KEY,
    DenseMapInfo.TOMBSTONE_KEY.
  rewrite orb_true_iff, !bool_decide_eq_true. split.
  - intros [[= -> ->]|[= -> ->]]; auto.
  - intros [-> [->| ->]]; auto.
Qed.

(** ** The flow requested without a path *)

(** X15: With the flow requested and no flow path given (the default of the
    option), a run that gets past the resolution stage and creates the
    design file does exactly what the same run does with the flow switched
    off, which exits with code 0, and then sends the two diagnostics of the
    flow to the error stream and exits with code 1.  So the files, the
    directories, the output stream and the requests are those of the run
    without the flow: no launcher script is opened and no child process is
    started. *)
Theorem main_flow_without_path
    (env : Env) (conc : Concretizer) (args : Options) (module : ModuleOp)
    (w0 w1 : World) :
  reaches_emission env conc args module w0 w1 ->
  env_open env w1 (designFile args) = true ->
  runLibreLane args = true ->
  libreLanePath args = EmptyString ->
  exists wf0,
    main env (without_flow args) w0 = (0, wf0) /\
    main env args w0 =
      (1, put_err ("Error: LibreLane flow failed" +:+ nl)
            (put_err ("Error: LibreLane path not specified" +:+ nl) wf0)).
Proof.
  intros Hreach Hopen Hflag Hpath.
  destruct (emitted_exists env args module w1 Hopen) as (w4 & Hem & _).
  exists (put_out (reportText args) w4). split.
  - pose proof (main_after_emitted env conc (without_flow args) module w0 w1 w4
                  Hreach Hem) as H.
    cbn [without_flow runLibreLane] in H. exact H.
  - rewrite (main_after_emitted env conc args module w0 w1 w4 Hreach Hem).
    rewrite Hflag, Hpath. reflexivity.
Qed.

(** The sample design with the flow requested and no path. *)
Lemma main_flow_without_path_witness :
  let args :=
    {| inputFilename := "design.mlir"; outputDir := "out"; dynamaticPath := ".";
       propertyFilename := EmptyString; pdk := "sky130";
       library := "sky130_fd_sc_hd"; designName := "dynamatic_design";
       runLibreLane := true; libreLanePath := EmptyString;
       rtlConfigs := ["rtl.json"] |} in
  (Sample.run Sample.envOk args).1 = 1 /\
  calls (Sample.run Sample.envOk args).2 =
    calls (Sample.run Sample.envOk (without_flow args)).2.
Proof.
  cbv zeta. unfold Sample.run.
  edestruct (main_flow_without_path Sample.envOk
               (spec_concretizeExternalModules Sample.envOk)
               {| inputFilename := "design.mlir"; outputDir := "out";
                  dynamaticPath := "."; propertyFilename := EmptyString;
                  pdk := "sky130"; library := "sky130_fd_sc_hd";
                  designName := "dynamatic_design"; runLibreLane := true;
                  libreLanePath := EmptyString; rtlConfigs := ["rtl.json"] |}
               Sample.design Sample.world0) as (wf0 & E0 & E).
  - eexists _, _, _. split; reflexivity.
  - reflexivity.
  - reflexivity.
  - reflexivity.
  - rewrite E. cbn [fst snd]. split; [reflexivity|].
    unfold without_flow in E0. cbn [inputFilename outputDir dynamaticPath
      propertyFilename pdk library designName libreLanePath rtlConfigs] in E0.
    unfold without_flow. cbn [inputFilename outputDir dynamaticPath
      propertyFilename pdk library designName libreLanePath rtlConfigs].
    rewrite E0. reflexivity.
Defined.

(** ** The size of the generated texts *)

Lemma length_app_string (a b : string) :
  String.length (a +:+ b) = (String.length a + String.length b)%nat.
Proof.
  induction a as [|c a IH]; [done|].
  change (String c a +:+ b) with (String c (a +:+ b)). cbn. by rewrite IH.
Qed.

(** X16: The generators copy their arguments and add a fixed text: the
    synthesis script holds the design name five times, the pdk three times,
    the library six times and the output directory three times, the backend
    configuration the design name three times and each of the others once, so
    the sizes of the texts are these multiples of the sizes of the arguments
    plus a constant. *)
Theorem generated_text_sizes (designName pdk library outputDir : string) :
  let d := String.length designName in
  let p := String.length pdk in
  let l := String.length library in
  let o := String.length outputDir in
  (String.length (createASICSynthesisScript designName pdk library outputDir) =
     587 + 5 * d + 3 * p + 6 * l + 3 * o)%nat /\
  (String.length (createLibreLaneConfig designName pdk library outputDir) =
     876 + 3 * d + p + l + o)%nat.
Proof.
  cbv beta zeta delta [createASICSynthesisScript createLibreLaneConfig
                         libreLaneConfigTail].
  rewrite !length_app_string.
  change (String.length nl) with 1%nat. change (String.length dq) with 1%nat.
  generalize (String.length designName) (String.length pdk)
             (String.length library) (String.length outputDir).
  intros d p l o. split; cbn [String.length]; lia.
Qed.

(** ** The exit codes of [main] *)

Lemma for_each_return_at {R A S} (body : S -> A -> Body R S) (x : A)
    (post : list A) (r : R) (wf : World) (pre : list A) : forall acc w acc' w',
  for_each pre body acc w = (Next acc', w') ->
  body acc' x w' = (Return r, wf) ->
  for_each (pre ++ x :: post) body acc w = (Return r, wf).
Proof.
  induction pre as [|a pre IH]; intros acc w acc' w' Hpre Hx.
  - injection Hpre as <- <-. cbn [app for_each]. unfold mbind, Body_bind.
    by rewrite Hx.
  - cbn [app for_each] in Hpre |- *. unfold mbind, Body_bind in Hpre |- *.
    destruct (body acc a w) as [[acc1|r1] w1]; [|done].
    by eapply IH.
Qed.

(** The loop over the configuration files either goes through or stops at
    the first file the environment does not parse. *)
Lemma parseConfigs_outcome env configs : forall acc w,
  (exists config w3,
     for_each configs (parseConfigs_step env) acc w = (Next config, w3)) \/
  (exists pre bad post config w3,
     configs = pre ++ bad :: post /\
     for_each pre (parseConfigs_step env) acc w = (Next config, w3) /\
     env_parseFromFile env w3 bad = None).
Proof.
  induction configs as [|c configs IH]; intros acc w.
  - left. by exists acc, w.
  - destruct (env_parseFromFile env w c) as [rules|] eqn:Hc.
    + destruct (IH (acc ++ rules) (log_call (SysParseConfig c true) w))
        as [(config & w3 & H)|(pre & bad & post & config & w3 & -> & H & Hbad)].
      * left. exists config, w3. cbn [for_each]. unfold mbind, Body_bind.
        by rewrite parseConfigs_step_eq, Hc.
      * right. exists (c :: pre), bad, post, config, w3.
        split; [done|]. split; [|done].
        cbn [for_each]. unfold mbind, Body_bind.
        by rewrite parseConfigs_step_eq, Hc.
    + right. by exists [], c, configs, acc, w.
Qed.

(** Each of the seven failures ends the run with code 1, right after its
    diagnostic. *)
Lemma main_failure_sound env conc args w0 msg w' :
  MainFailure env conc args w0 msg w' ->
  main env args w0 = (1, put_err msg w').
Proof.
  intros [message Hget|buffer Hget Hparse|module message w1 w2 Hinput Hdir
         |module pre post bad config w1 w2 w3 Hinput Hdir Hsplit Hpre Hbad
         |module config info' w w2 Hsetup Hconc
         |module w1 Hreach Hopen
         |module w1 w4 w6 Hreach Hem Hflag Hrun].
  - unfold main, main_setup, main_parseInput, function, mbind, Body_bind, invoke,
      getFileOrSTDIN.
    by rewrite Hget.
  - unfold main, main_setup, main_parseInput, function, mbind, Body_bind, invoke,
      getFileOrSTDIN.
    by rewrite Hget, Hparse.
  - unfold main, function, main_setup, main_createOutputDirectory, mbind,
      Body_bind, invoke.
    by rewrite Hinput, Hdir.
  - unfold main, function, main_setup, main_createOutputDirectory, mbind,
      Body_bind, invoke.
    rewrite Hinput, Hdir. cbn [mret Body_ret].
    change (main_parseConfigs env args)
      with (for_each (rtlConfigs args) (parseConfigs_step env) []).
    rewrite Hsplit.
    erewrite for_each_return_at; [done|exact Hpre|].
    by rewrite parseConfigs_step_eq, Hbad.
  - unfold main, function, mbind, Body_bind. rewrite Hsetup.
    unfold main_export, main_concretize, mbind, Body_bind, invoke.
    by rewrite Hconc.
  - destruct Hreach as (config & w & info & Hsetup & Hconc).
    unfold main, function, mbind, Body_bind. rewrite Hsetup.
    unfold main_export, mbind, Body_bind. rewrite Hconc.
    by rewrite (main_writeDesign_fail env args module w1 Hopen).
  - rewrite (main_after_emitted env conc args module w0 w1 w4 Hreach Hem).
    by rewrite Hflag, Hrun.
Qed.

(** Every run ends with code 0 or at one of the seven failures. *)
Lemma main_failure_complete env conc args w0 :
  (exists wf, main env args w0 = (0, wf)) \/
  (exists msg w', MainFailure env conc args w0 msg w').
Proof.
  destruct (env_getFile env w0 (inputFilename args)) as [message|buffer] eqn:Hget.
  { right. eexists _, _. by eapply FailOpenInput. }
  destruct (env_parseSourceFile env buffer) as [module|] eqn:Hparse.
  2:{ right. eexists _, _. by eapply FailParseInput. }
  assert (Hinput : main_parseInput env args w0 =
            (Next module, log_call (SysGetFile (inputFilename args) true) w0)).
  { unfold main_parseInput, mbind, Body_bind, invoke, getFileOrSTDIN.
    by rewrite Hget, Hparse. }
  destruct (create_directories env (outputDir args)
              (log_call (SysGetFile (inputFilename args) true) w0))
    as [[message|] w2] eqn:Hdir.
  { right. eexists _, _. by eapply FailOutputDir. }
  destruct (parseConfigs_outcome env (rtlConfigs args) [] w2)
    as [(config & w3 & Hloop)|(pre & bad & post & config & w3 & Hsplit & Hpre & Hbad)].
  2:{ right. eexists _, _. by eapply FailConfig. }
  assert (Hsetup : main_setup env args w0 = (Next (module, config), w3)).
  { unfold main_setup, main_createOutputDirectory, mbind, Body_bind, invoke.
    rewrite Hinput, Hdir. cbn [mret Body_ret].
    change (main_parseConfigs env args)
      with (for_each (rtlConfigs args) (parseConfigs_step env) []).
    by rewrite Hloop. }
  destruct (@concretizeExternalModules conc
              (ASICExportInfo_new module config (outputDir args) (pdk args)
                                  (library args) (designName args)) w3)
    as [[[] info'] w4] eqn:Hconc.
  2:{ right. eexists _, _. by eapply FailResolution. }
  assert (Hreach : reaches_emission env conc args module w0 w4).
  { exists config, w3, info'. split; [done|].
    unfold main_concretize, mbind, Body_bind, invoke. by rewrite Hconc. }
  destruct (env_open env w4 (designFile args)) eqn:Hopen.
  2:{ right. eexists _, _. by eapply FailDesignFile. }
  destruct (emitted_exists env args module w4 Hopen) as (w7 & Hem & _).
  pose proof (main_after_emitted env conc args module w0 w4 w7 Hreach Hem) as Hmain.
  destruct (runLibreLane args) eqn:Hflag; [|left; by eexists].
  destruct (runLibreLaneFlow env _ _ _ _) as [[] w8] eqn:Hrun.
  - left. by eexists.
  - right. eexists _, _. by eapply FailFlow.
Qed.

(** X1: [main] exits with code 0 or 1, whatever the environment and the
    resolution stage do.  It exits with code 1 exactly at one of its seven
    failures (the input cannot be read, the input does not parse, the output
    directory cannot be provided, a configuration file does not parse, the
    resolution fails, the design file cannot be created, the requested flow
    fails), and then the last thing it does is to send the diagnostic of
    that failure to the error stream, in the world the failing step left. *)
Theorem main_exit_codes
    (env : Env) (conc : Concretizer) (args : Options) (w0 : World) :
  let '(code, wf) := main env args w0 in
  (code = 0 \/ code = 1) /\
  (code = 1 <->
   exists msg w', MainFailure env conc args w0 msg w' /\ wf = put_err msg w').
Proof.
  destruct (main env args w0) as [code wf] eqn:Hmain.
  destruct (main_failure_complete env conc args w0)
    as [(wf0 & H0)|(msg & w' & Hfail)].
  - rewrite H0 in Hmain. injection Hmain as <- <-.
    split; [by left|]. split; [done|].
    intros (msg & w' & Hfail & _).
    apply main_failure_sound in Hfail. by rewrite H0 in Hfail.
  - pose proof (main_failure_sound _ _ _ _ _ _ Hfail) as H1.
    rewrite H1 in Hmain. injection Hmain as <- <-.
    split; [by right|]. split; [|done]. intros _. by exists msg, w'.
Qed.
